(** * gaming_news_bot: the daily news pipeline, its formatter and its scheduler

    A shallow embedding of [gaming_news_bot.py].  The coroutines of the
    module become functions of a small state-and-exception monad: the state
    is the journal of what a run did to the outside (log records, HTTP
    requests, messages handed to Discord) together with the task loop, and a
    raised Python exception is the [Raise] result.  What the outside answers
    (the channel cache, the completion endpoint, Discord accepting a
    message, the clock) is read from a [world]. *)

From Stdlib Require Import String Ascii ZArith NArith QArith Bool List Lia.
Import ListNotations.

Local Open Scope string_scope.
Local Open Scope list_scope.
Local Open Scope Z_scope.

(** ** Python values *)

(** A Python [str] is a sequence of code points: [len] counts them and a
    slice cuts between them. *)
Definition pystr : Type := list N.

(** An ASCII literal as a [str]. *)
Definition str (s : string) : pystr :=
  map N_of_ascii (list_ascii_of_string s).

(** What [data['choices'][0]['message']['content']] can hold: the text of
    the answer, or [None] for a JSON null. *)
Inductive pyval : Type :=
| PyNone
| PyStr (s : pystr).

(** Truth value of an object, as [if not x] tests it. *)
Definition truthy (v : pyval) : bool :=
  match v with
  | PyNone => false
  | PyStr [] => false
  | PyStr (_ :: _) => true
  end.

(** The exceptions of the model, all subclasses of [Exception]. *)
Inductive exn : Type :=
| ClientError        (* aiohttp: connection refused, reset, DNS *)
| TimeoutError       (* asyncio timeout of the request *)
| ContentTypeError   (* response.json() on a body that is not JSON *)
| KeyError           (* a missing key or index in the envelope *)
| TypeError
| AttributeError     (* an attribute the object does not have *)
| HTTPException      (* discord: the message was not accepted *)
| RuntimeError.

(** ** Data *)

(** The two prompts; the second is an f-string around the text to check. *)
Inductive prompt : Type :=
| news_prompt
| fact_check_prompt (content : pyval).

Record message_entry : Type := { role : string; content : prompt }.

(** The JSON body of a completion request. *)
Record payload : Type := {
  model : string;
  messages : list message_entry;
  max_tokens : Z;
  temperature : Q
}.

Inductive body : Type :=
| Malformed (e : exn)          (* json() or the subscripts raise [e] *)
| Choice_content (c : pyval).  (* choices[0].message.content *)

Record response : Type := { status : Z; json : body }.

Inductive http_outcome : Type :=
| Transport_error (e : exn)
| Responded (r : response).

Record field : Type := { name : pystr; value : pystr; inline : bool }.

Record embed : Type := {
  title : pystr;
  description : pystr;
  color : Z;
  timestamp : Z;
  fields : list field;
  footer_text : pystr;
  footer_icon_url : string
}.

(** [discord.Embed(title=..., color=...)] with its fields; no description,
    timestamp or footer is set on the embed of the status command. *)
Record status_embed : Type := {
  status_title : pystr;
  status_color : Z;
  status_fields : list field
}.

Inductive message : Type :=
| Text (s : pystr)
| Embedded (e : embed)
| Status_card (c : status_embed).

(** Where a message goes: a channel of the cache, or the context of the
    command being answered. *)
Inductive target : Type :=
| Channel (id : Z)
| Context.

Inductive level : Type := INFO | WARNING | ERROR.

Inductive log_message : Type :=
| Perplexity_API_error (status : Z)
| Error_fetching_news (e : exn)
| Error_fact_checking (e : exn)
| News_channel_not_found
| Fetching_gaming_news
| Fact_checking_news_content
| Daily_news_posted
| Error_posting_daily_news (e : exn)
| Connected_to_Discord
| Bot_is_in_guilds
| Daily_task_started
| Running_daily_task.

(** One entry of the journal.  [Send t m ok] is a call of [send] with [m]
    on [t]; [ok] tells whether Discord accepted it. *)
Inductive event : Type :=
| Log (l : level) (m : log_message)
| Post (p : payload)
| Send (t : target) (m : message) (ok : bool).

(** Modelled from the spec: the task loop of [discord.ext.tasks], whose code
    is not in the repository.  The spec gives it two states, Idle (not yet
    started) and Armed (running); [running] is what [is_running()] reads and
    [starts] counts the calls of [start()] that launched the task. *)
Record loop : Type := { running : bool; starts : nat }.

Record state : Type := { journal : list event; task : loop }.

(** The environment of a run. *)
Record world : Type := {
  NEWS_CHANNEL_ID : Z;
  NEWS_POST_HOUR : Z;
  NEWS_POST_MINUTE : Z;
  get_channel : Z -> option Z;          (* bot.get_channel *)
  provider : payload -> http_outcome;   (* the completion endpoint *)
  sink_accepts : nat -> bool;           (* the n-th call of send succeeds *)
  utcnow : Z                            (* datetime.now(timezone.utc) *)
}.

(** The four ways out of [post_daily_news].  The coroutine returns [None]
    on each of them; the model returns which one was taken. *)
Inductive outcome : Type :=
| NoChannel       (* the return under "News channel not found" *)
| FetchFailed     (* the return after the fetch-failure notice *)
| Delivered       (* the end of the try block *)
| DeliveryError.  (* the end of the except block *)

(** ** The monad *)

Inductive result (A : Type) : Type :=
| Ok (a : A)
| Raise (e : exn).
Arguments Ok {A} a.
Arguments Raise {A} e.

Definition M (A : Type) : Type := state -> result A * state.

Definition ret {A} (a : A) : M A := fun st => (Ok a, st).

Definition raise {A} (e : exn) : M A := fun st => (Raise e, st).

Definition bind {A B} (m : M A) (k : A -> M B) : M B :=
  fun st =>
    match m st with
    | (Ok a, st') => k a st'
    | (Raise e, st') => (Raise e, st')
    end.

(** [try: m except Exception as e: h e] *)
Definition try_except {A} (m : M A) (h : exn -> M A) : M A :=
  fun st =>
    match m st with
    | (Ok a, st') => (Ok a, st')
    | (Raise e, st') => h e st'
    end.

Declare Scope monad_scope.
Delimit Scope monad_scope with monad.
Notation "x <- m ;; k" := (bind m (fun x => k))
  (at level 61, m at next level, right associativity) : monad_scope.
Notation "m ;; k" := (bind m (fun _ => k))
  (at level 61, right associativity) : monad_scope.
Local Open Scope monad_scope.

(** The journal is kept newest first; [history] reads it in order. *)
Definition emit (e : event) : M unit :=
  fun st => (Ok tt, {| journal := e :: journal st; task := task st |}).

Definition logger (l : level) (m : log_message) : M unit := emit (Log l m).

Definition is_send (e : event) : bool :=
  match e with Send _ _ _ => true | _ => false end.

Definition send_count (j : list event) : nat := length (filter is_send j).

Definition fresh (t : loop) : state := {| journal := []; task := t |}.

Definition history {A} (r : result A * state) : list event :=
  rev (journal (snd r)).

Definition returned {A} (r : result A * state) : result A := fst r.

(** Every message handed to [send], in order. *)
Fixpoint sent (h : list event) : list message :=
  match h with
  | [] => []
  | Send _ m _ :: h' => m :: sent h'
  | _ :: h' => sent h'
  end.

(** The messages Discord accepted. *)
Fixpoint delivered (h : list event) : list message :=
  match h with
  | [] => []
  | Send _ m true :: h' => m :: delivered h'
  | _ :: h' => delivered h'
  end.

(** The requests made to the completion endpoint. *)
Fixpoint posts (h : list event) : list payload :=
  match h with
  | [] => []
  | Post p :: h' => p :: posts h'
  | _ :: h' => posts h'
  end.

Fixpoint logged (h : list event) : list (level * log_message) :=
  match h with
  | [] => []
  | Log l m :: h' => (l, m) :: logged h'
  | _ :: h' => logged h'
  end.

(** ** String constants of the module *)

Definition check_mark : N := 0x2705%N.
Definition cross_mark : N := 0x274C%N.

Definition ellipsis : pystr := str "...".

Definition verification_unavailable : pystr :=
  check_mark :: str " Content appears factual (verification unavailable)".

Definition fact_check_unavailable : pystr :=
  check_mark :: str " Content appears factual (fact-check unavailable)".

Definition unable_to_fetch : pystr :=
  cross_mark :: str " Unable to fetch gaming news today. Please try again later.".

Definition error_occurred : pystr :=
  cross_mark :: str " An error occurred while fetching today's gaming news.".

Definition fetching_test_news : pystr :=
  0x1F504%N :: str " Fetching test gaming news...".

Definition need_administrator : pystr :=
  cross_mark :: str " You need administrator permissions to use this command.".

Section Bot.

Variable w : world.

(** ** PerplexityAPI *)

(** [channel.send] and [ctx.send]: Discord accepts the message, or the call
    raises. *)
Definition send (t : target) (m : message) : M unit :=
  fun st =>
    let ok := sink_accepts w (send_count (journal st)) in
    let st' := {| journal := Send t m ok :: journal st; task := task st |} in
    if ok then (Ok tt, st') else (Raise HTTPException, st').

(** [session.post(PERPLEXITY_BASE_URL, headers=..., json=payload)] *)
Definition session_post (p : payload) : M response :=
  emit (Post p) ;;
  match provider w p with
  | Transport_error e => raise e
  | Responded r => ret r
  end.

(** [(await response.json())['choices'][0]['message']['content']] *)
Definition first_choice_content (r : response) : M pyval :=
  match json r with
  | Malformed e => raise e
  | Choice_content c => ret c
  end.

Definition news_payload : payload :=
  {| model := "sonar-pro";
     messages := [ {| role := "user"; content := news_prompt |} ];
     max_tokens := 800;
     temperature := 3 # 10 |}.

Definition fact_check_payload (text : pyval) : payload :=
  {| model := "sonar-pro";
     messages := [ {| role := "user"; content := fact_check_prompt text |} ];
     max_tokens := 400;
     temperature := 1 # 10 |}.

Definition fetch_gaming_news : M pyval :=
  try_except
    (r <- session_post news_payload ;;
     if status r =? 200 then first_choice_content r
     else logger ERROR (Perplexity_API_error (status r)) ;; ret PyNone)
    (fun e => logger ERROR (Error_fetching_news e) ;; ret PyNone).

Definition fact_check_content (text : pyval) : M pyval :=
  try_except
    (r <- session_post (fact_check_payload text) ;;
     if status r =? 200 then first_choice_content r
     else ret (PyStr verification_unavailable))
    (fun e => logger ERROR (Error_fact_checking e) ;;
              ret (PyStr fact_check_unavailable)).

(** ** GamingNewsBot *)

(** [s[:limit] + "..." if len(s) > limit else s] on a [str]. *)
Definition clip (limit : nat) (s : pystr) : pystr :=
  if (limit <? length s)%nat then firstn limit s ++ ellipsis else s.

(** The same expression on any object: [len(None)] raises. *)
Definition clipped (limit : nat) (text : pyval) : M pystr :=
  match text with
  | PyNone => raise TypeError
  | PyStr s => ret (clip limit s)
  end.

Definition create_news_embed (news_content fact_check_result : pyval) : M embed :=
  let now := utcnow w in
  news_value <- clipped 1000 news_content ;;
  fact_value <- clipped 500 fact_check_result ;;
  ret {| title := 0x1F3AE%N :: str " Daily Gaming Industry News";
         description := str "Latest verified gaming news with AI fact-checking";
         color := 0x00ff00;
         timestamp := now;
         fields :=
           [ {| name := 0x1F4F0%N :: str " Today's Gaming News";
                value := news_value; inline := false |};
             {| name := check_mark :: str " Fact-Check Results";
                value := fact_value; inline := false |} ];
         footer_text := str "Powered by Perplexity AI | Gaming News Bot";
         footer_icon_url := "https://cdn.discordapp.com/embed/avatars/0.png" |}.

Definition post_daily_news : M outcome :=
  let channel := get_channel w (NEWS_CHANNEL_ID w) in
  try_except
    (match channel with
     | None => logger ERROR News_channel_not_found ;; ret NoChannel
     | Some ch =>
         logger INFO Fetching_gaming_news ;;
         news_content <- fetch_gaming_news ;;
         if negb (truthy news_content) then
           send (Channel ch) (Text unable_to_fetch) ;; ret FetchFailed
         else
           logger INFO Fact_checking_news_content ;;
           fact_check_result <- fact_check_content news_content ;;
           e <- create_news_embed news_content fact_check_result ;;
           send (Channel ch) (Embedded e) ;;
           logger INFO Daily_news_posted ;;
           ret Delivered
     end)
    (fun e =>
       logger ERROR (Error_posting_daily_news e) ;;
       match channel with
       | Some ch => send (Channel ch) (Text error_occurred)
       | None => ret tt
       end ;;
       ret DeliveryError).

(** ** Events, task and commands *)

Definition is_running : M bool := fun st => (Ok (running (task st)), st).

(** Modelled from the spec: [Loop.start()] arms the task; the library
    refuses to launch a task that is running. *)
Definition start : M unit :=
  fun st =>
    if running (task st) then (Raise RuntimeError, st)
    else (Ok tt, {| journal := journal st;
                    task := {| running := true; starts := S (starts (task st)) |} |}).

Definition on_ready : M unit :=
  logger INFO Connected_to_Discord ;;
  logger INFO Bot_is_in_guilds ;;
  r <- is_running ;;
  if negb r then start ;; logger INFO Daily_task_started
  else ret tt.

Definition daily_gaming_news : M outcome :=
  logger INFO Running_daily_task ;;
  post_daily_news.

(** The invoker of a command, as far as the bot looks at them: a guild
    member has [guild_permissions]; a [discord.User], the author of a
    command sent in a direct message, has no such attribute. *)
Record permissions : Type := { administrator : bool }.

Inductive author : Type :=
| Member (perms : permissions)
| User.

(** [ctx.author.guild_permissions] *)
Definition guild_permissions (a : author) : M permissions :=
  match a with
  | Member perms => ret perms
  | User => raise AttributeError
  end.

Definition test_news (ctx : author) : M unit :=
  perms <- guild_permissions ctx ;;
  if administrator perms then
    send Context (Text fetching_test_news) ;;
    post_daily_news ;;
    ret tt
  else
    send Context (Text need_administrator).

End Bot.

(** ** Concrete worlds, for the examples *)

Definition is_news_request (p : payload) : bool :=
  match messages p with
  | [ {| content := news_prompt |} ] => true
  | _ => false
  end.

(** A world whose channel cache holds (or not) channel 42, whose endpoint
    answers [news] to the news request and [fact] to any other, and whose
    sink answers by [sink]. *)
Definition a_world (ch : bool) (news fact : http_outcome) (sink : nat -> bool) : world :=
  {| NEWS_CHANNEL_ID := 42;
     NEWS_POST_HOUR := 9;
     NEWS_POST_MINUTE := 0;
     get_channel := fun id => if (id =? 42) && ch then Some id else None;
     provider := fun p => if is_news_request p then news else fact;
     sink_accepts := sink;
     utcnow := 1757408400 |}.

Definition answers (code : Z) (c : pyval) : http_outcome :=
  Responded {| status := code; json := Choice_content c |}.

Definition idle : loop := {| running := false; starts := 0 |}.

(** Iterating the connection-ready signal. *)
Fixpoint ready_signals (n : nat) (st : state) : state :=
  match n with
  | O => st
  | S n' => snd (on_ready (ready_signals n' st))
  end.

(** ** The schedule *)

(** Modelled from the spec: the next-fire computation of the task loop,
    which the module leaves to [discord.ext.tasks] (it only passes
    [time(hour=NEWS_POST_HOUR, minute=NEWS_POST_MINUTE)] and reads
    [next_iteration]).  Timestamps are seconds since the epoch, UTC.  The
    next fire is today's occurrence of the configured hour:minute when that
    is still ahead of the evaluation time, and tomorrow's otherwise; an
    idle scheduler has none. *)
Definition seconds_per_day : Z := 86400.

Definition occurrence (w : world) (day : Z) : Z :=
  day * seconds_per_day + NEWS_POST_HOUR w * 3600 + NEWS_POST_MINUTE w * 60.

Definition day_of (now : Z) : Z := now / seconds_per_day.

Definition next_occurrence (w : world) (now : Z) : Z :=
  if now <? occurrence w (day_of now) then occurrence w (day_of now)
  else occurrence w (day_of now + 1).

Definition next_fire (w : world) (st : state) (now : Z) : option Z :=
  if running (task st) then Some (next_occurrence w now) else None.

(** What [datetime.time(hour=..., minute=...)] accepts. *)
Definition valid_time (w : world) : Prop :=
  0 <= NEWS_POST_HOUR w <= 23 /\ 0 <= NEWS_POST_MINUTE w <= 59.

(** ** Vocabulary of the statements *)

(** A completion call fails: a transport error, or a status other than
    200. *)
Inductive failed : http_outcome -> Prop :=
| failed_transport (e : exn) : failed (Transport_error e)
| failed_status (r : response) : status r <> 200 -> failed (Responded r).

(** The fallback text [fact_check_content] answers a failed call with. *)
Definition fallback_of (o : http_outcome) : pystr :=
  match o with
  | Transport_error _ => fact_check_unavailable
  | Responded _ => verification_unavailable
  end.

Definition field_value (n : nat) (e : embed) : option pystr :=
  option_map value (nth_error (fields e) n).

(** The invoker holds the administrator permission. *)
Definition is_administrator (a : author) : bool :=
  match a with
  | Member perms => administrator perms
  | User => false
  end.

Definition is_report (m : message) : bool :=
  match m with Embedded _ => true | Text _ | Status_card _ => false end.

(** One pipeline run, from an empty journal. *)
Definition run (w : world) (t : loop) : result outcome * state :=
  post_daily_news w (fresh t).

(** The world as a run sees it after [k] calls of [send]. *)
Definition later_sink (w : world) (k : nat) : world :=
  {| NEWS_CHANNEL_ID := NEWS_CHANNEL_ID w;
     NEWS_POST_HOUR := NEWS_POST_HOUR w;
     NEWS_POST_MINUTE := NEWS_POST_MINUTE w;
     get_channel := get_channel w;
     provider := provider w;
     sink_accepts := fun n => sink_accepts w (k + n);
     utcnow := utcnow w |}.

(** A run from an empty journal, placed after the journal of [st]. *)
Definition after (st : state) {A} (r : result A * state) : result A * state :=
  (fst r, {| journal := journal (snd r) ++ journal st; task := task (snd r) |}).

(** C1 as the spec words it: one fixed fallback string is field 2 of the
    delivered report whenever the fetch succeeded and the fact-check call
    failed (here even with a sink that accepts every message). *)
Definition single_fallback_string : Prop :=
  exists fallback : pystr,
    forall (w : world) (t : loop) (ch : Z) (text : pystr),
      get_channel w (NEWS_CHANNEL_ID w) = Some ch ->
      provider w news_payload = answers 200 (PyStr text) ->
      text <> [] ->
      failed (provider w (fact_check_payload (PyStr text))) ->
      (forall n, sink_accepts w n = true) ->
      exists e, delivered (history (run w t)) = [Embedded e] /\
                field_value 1 e = Some fallback.

(** C3 as the spec words it, for the fact-check call: a failed call
    returns the absence value. *)
Definition fact_check_returns_absence : Prop :=
  forall (w : world) (text : pyval) (st : state),
    failed (provider w (fact_check_payload text)) ->
    returned (fact_check_content w text st) = Ok PyNone.

(** C4 as the spec words it: when the fetch returns the absence value,
    exactly one message is sent, a plain-text notice. *)
Definition one_notice_when_fetch_absent : Prop :=
  forall (w : world) (t : loop) (ch : Z),
    get_channel w (NEWS_CHANNEL_ID w) = Some ch ->
    returned (fetch_gaming_news w (fresh t)) = Ok PyNone ->
    exists notice, sent (history (run w t)) = [Text notice].

(** C5 as the spec words it: every invocation sends exactly one message. *)
Definition one_message_per_invocation : Prop :=
  forall (w : world) (t : loop), length (sent (history (run w t))) = 1%nat.

(** ** The status command *)

Section Status.

(** [datetime] objects, [strftime] on them and the f-string rendering of an
    [int] belong to Python; the status command only passes values through
    them. *)
Variable datetime : Type.
Variable strftime : datetime -> pystr.
Variable format_int : Z -> pystr.

(** The status command: it builds the embed and sends it to the invoking
    context.  The invoker is not looked at. *)
Definition bot_status (w : world) (next_iteration : option datetime) : M unit :=
  active <- is_running ;;
  send w Context
    (Status_card
       {| status_title := 0x1F916%N :: str " Gaming News Bot Status";
          status_color := 0x0099ff;
          status_fields :=
            [ {| name := str "Status";
                 value := check_mark :: str " Online"; inline := true |};
              {| name := str "Daily News";
                 value := if active then check_mark :: str " Active"
                          else cross_mark :: str " Inactive";
                 inline := true |};
              {| name := str "News Channel";
                 value := str "<#" ++ format_int (NEWS_CHANNEL_ID w) ++ str ">";
                 inline := true |};
              {| name := str "Next Post";
                 value := match next_iteration with
                          | Some at_time => strftime at_time
                          | None => str "Not scheduled"
                          end;
                 inline := false |} ] |}).

End Status.

(** ** Module start-up *)

Section Startup.

(** [int(s)] on a [str]: the integer read, or [None] where it raises
    ValueError. *)
Variable int_of : pystr -> option Z.

(** [bot.run(token)]: [None] when it returns, the exception when it
    raises. *)
Variable bot_run : pystr -> option exn.

(** [os.getenv]: [None] for a variable that is not set. *)
Definition environ : Type := string -> pyval.

(** [int(os.getenv(name, default))] *)
Definition getenv_int (env : environ) (name : string) (default : Z) : option Z :=
  match env name with
  | PyNone => Some default
  | PyStr s => int_of s
  end.

(** [datetime.time(hour=h, minute=m)] raises ValueError out of these
    ranges. *)
Definition time_accepts (h m : Z) : bool :=
  (0 <=? h) && (h <=? 23) && (0 <=? m) && (m <=? 59).

Inductive startup_message : Type :=
| API_key_not_found
| Token_not_found
| Channel_id_not_set
| Failed_to_start_bot (e : exn).

(** How the execution of the module ends. *)
Inductive ending : Type :=
| Load_failed                (* int() or time() raised while the module loads:
                                ValueError, or OverflowError from time() *)
| SystemExit (code : Z)      (* exit(1) *)
| Imported                   (* loaded, but not as __main__ *)
| Bot_returned.              (* bot.run was called; it returned or its
                                exception was logged *)

Record settings : Type := {
  channel_id : Z;
  post_hour : Z;
  post_minute : Z
}.

(** Lines 27-29 and the [time(...)] of the task decorator. *)
Definition load_settings (env : environ) : option settings :=
  match getenv_int env "NEWS_CHANNEL_ID" 0 with
  | None => None
  | Some c =>
      match getenv_int env "NEWS_POST_HOUR" 9 with
      | None => None
      | Some h =>
          match getenv_int env "NEWS_POST_MINUTE" 0 with
          | None => None
          | Some m =>
              if time_accepts h m
              then Some {| channel_id := c; post_hour := h; post_minute := m |}
              else None
          end
      end
  end.

(** The module from top to bottom: what it logs and how it ends. *)
Definition module_body (env : environ) (as_main : bool)
  : list (level * startup_message) * ending :=
  let PERPLEXITY_API_KEY := env "PERPLEXITY_API_KEY" in
  let DISCORD_TOKEN := env "DISCORD_TOKEN" in
  match load_settings env with
  | None => ([], Load_failed)
  | Some cfg =>
      if negb (truthy PERPLEXITY_API_KEY) then
        ([(ERROR, API_key_not_found)], SystemExit 1)
      else if negb (truthy DISCORD_TOKEN) then
        ([(ERROR, Token_not_found)], SystemExit 1)
      else
        let warned :=
          if channel_id cfg =? 0 then [(WARNING, Channel_id_not_set)] else [] in
        if as_main then
          match DISCORD_TOKEN with
          | PyStr token =>
              match bot_run token with
              | None => (warned, Bot_returned)
              | Some e => (warned ++ [(ERROR, Failed_to_start_bot e)], Bot_returned)
              end
          | PyNone => (warned, Bot_returned)
          end
        else (warned, Imported)
  end.

(** The world a loaded module runs in. *)
Definition configured (cfg : settings) (w : world) : Prop :=
  NEWS_CHANNEL_ID w = channel_id cfg /\
  NEWS_POST_HOUR w = post_hour cfg /\
  NEWS_POST_MINUTE w = post_minute cfg.

End Startup.

(** An environment given by the list of the variables that are set. *)
Fixpoint env_of (vars : list (string * pystr)) : environ :=
  match vars with
  | [] => fun _ => PyNone
  | (k, v) :: rest => fun name => if String.eqb name k then PyStr v else env_of rest name
  end.

(** The newest-first journal of [n] ready signals after the first. *)
Fixpoint later_signals (n : nat) : list event :=
  match n with
  | O => []
  | S n' => Log INFO Bot_is_in_guilds :: Log INFO Connected_to_Discord :: later_signals n'
  end.

Arguments str : simpl never.
Arguments clip : simpl never.
Arguments fact_check_payload : simpl never.

(** ** Proof tools *)

Ltac unfold_bot :=
  unfold run, test_news, guild_permissions, daily_gaming_news, post_daily_news,
    fetch_gaming_news, fact_check_content, create_news_embed, clipped,
    session_post, first_choice_content, send, try_except, bind, logger,
    emit, ret, raise, history, returned, fresh in *.

(** Split on the innermost scrutinee the goal is stuck on. *)
Ltac split_stuck :=
  match goal with
  | |- context [match ?x with _ => _ end] =>
      lazymatch x with
      | context [match _ with _ => _ end] => fail
      | _ => destruct x eqn:?
      end
  end.

Ltac crunch := unfold_bot; cbn in *; repeat (split_stuck; cbn in *; try discriminate).

(** ** The formatter *)

Lemma clip_short (limit : nat) (s : pystr) :
  (length s <= limit)%nat -> clip limit s = s.
Proof.
  intros H. unfold clip.
  destruct (Nat.ltb_spec limit (length s)); [lia | reflexivity].
Qed.

Lemma clip_long (limit : nat) (s : pystr) :
  (limit < length s)%nat -> clip limit s = firstn limit s ++ ellipsis.
Proof.
  intros H. unfold clip.
  destruct (Nat.ltb_spec limit (length s)); [reflexivity | lia].
Qed.

Lemma create_news_embed_fields (w : world) (st : state) (news fact : pystr) :
  exists e,
    create_news_embed w (PyStr news) (PyStr fact) st = (Ok e, st) /\
    field_value 0 e = Some (clip 1000 news) /\
    field_value 1 e = Some (clip 500 fact) /\
    length (fields e) = 2%nat.
Proof. eexists. repeat split. Qed.

(** C2: body field 1 is the news text unchanged when it has at most 1000
    characters and its first 1000 characters followed by ["..."] when it is
    longer; body field 2 is the fact-check text under the same rule at 500. *)
Theorem create_news_embed_truncates (w : world) (st : state) (news fact : pystr) :
  exists e f1 f2,
    create_news_embed w (PyStr news) (PyStr fact) st = (Ok e, st) /\
    fields e = [f1; f2] /\
    ((length news <= 1000)%nat -> value f1 = news) /\
    ((1000 < length news)%nat -> value f1 = firstn 1000 news ++ str "...") /\
    ((length fact <= 500)%nat -> value f2 = fact) /\
    ((500 < length fact)%nat -> value f2 = firstn 500 fact ++ str "...").
Proof.
  do 3 eexists. split; [reflexivity|]. split; [reflexivity|].
  cbv beta iota delta [value].
  repeat split; intros; solve [now apply clip_short | now apply clip_long].
Qed.

Lemma create_news_embed_truncates_witness :
  exists e f1 f2,
    create_news_embed (a_world true (answers 200 PyNone) (answers 200 PyNone) (fun _ => true))
      (PyStr (repeat 97%N 1001)) (PyStr (str "High credibility")) (fresh idle)
      = (Ok e, fresh idle) /\
    fields e = [f1; f2] /\
    value f1 = repeat 97%N 1000 ++ str "..." /\
    value f2 = str "High credibility".
Proof.
  destruct (create_news_embed_truncates
              (a_world true (answers 200 PyNone) (answers 200 PyNone) (fun _ => true))
              (fresh idle) (repeat 97%N 1001) (str "High credibility"))
    as (e & f1 & f2 & He & Hf & _ & Hlong & Hshort & _).
  exists e, f1, f2. split; [exact He|]. split; [exact Hf|]. split.
  - rewrite Hlong; [reflexivity | rewrite repeat_length; lia].
  - apply Hshort. vm_compute. lia.
Defined.

(** ** The pipeline *)

(** C6: when the channel cache does not hold the news channel, the run
    logs "News channel not found" and returns at once: nothing else is
    added to the journal, so no message is sent and no request is made. *)
Theorem unresolved_channel_sends_nothing (w : world) (st : state) :
  get_channel w (NEWS_CHANNEL_ID w) = None ->
  post_daily_news w st =
    (Ok NoChannel,
     {| journal := Log ERROR News_channel_not_found :: journal st;
        task := task st |}) /\
  (forall t, sent (history (run w t)) = [] /\
             posts (history (run w t)) = [] /\
             logged (history (run w t)) = [(ERROR, News_channel_not_found)]).
Proof.
  intros H. unfold_bot. rewrite H. cbn. repeat split.
Qed.

Lemma unresolved_channel_sends_nothing_witness :
  run (a_world false (answers 200 (PyStr (str "news"))) (answers 200 PyNone) (fun _ => true)) idle
  = (Ok NoChannel, {| journal := [Log ERROR News_channel_not_found]; task := idle |}).
Proof.
  exact (proj1 (unresolved_channel_sends_nothing
                  (a_world false (answers 200 (PyStr (str "news"))) (answers 200 PyNone)
                     (fun _ => true))
                  (fresh idle) eq_refl)).
Defined.

(** Every run of the pipeline writes a log record on its way in, so a
    journal without one shows that the pipeline did not run. *)
Lemma post_daily_news_is_logged (w : world) (t : loop) :
  logged (history (run w t)) <> [].
Proof.
  unfold_bot.
  destruct (get_channel w (NEWS_CHANNEL_ID w)); cbn.
  - repeat (split_stuck; cbn); discriminate.
  - discriminate.
Qed.

(** A run that starts from any journal is the run from an empty one, with
    the sink counted from the sends already made: what is proved of [run]
    holds of the scheduled and of the commanded runs alike. *)
Lemma post_daily_news_anywhere (w : world) (st : state) :
  post_daily_news w st =
  after st (run (later_sink w (send_count (journal st))) (task st)).
Proof.
  unfold after, later_sink. crunch.
  all: rewrite ?Nat.add_0_r, ?Nat.add_1_r in *.
  all: unfold send_count in *; cbn in *.
  all: congruence || reflexivity.
Qed.

Lemma test_news_of_member (w : world) (perms : permissions) (st : state) :
  test_news w (Member perms) st =
    (if administrator perms then
       send w Context (Text fetching_test_news) ;; post_daily_news w ;; ret tt
     else send w Context (Text need_administrator)) st.
Proof. reflexivity. Qed.

(** C7: the command on an invoker without the administrator permission.
    For a guild member the permission-denied notice is the one thing the
    command does.  The author of a direct message has no guild
    permissions at all: reading them raises AttributeError before
    anything is sent, so that invoker gets no notice.  Either way the
    pipeline does not run and no request is made. *)
Theorem test_news_without_administrator (w : world) (st : state) :
  test_news w User st = (Raise AttributeError, st) /\
  (let ok := sink_accepts w (send_count (journal st)) in
   test_news w (Member {| administrator := false |}) st =
     (if ok then Ok tt else Raise HTTPException,
      {| journal := Send Context (Text need_administrator) ok :: journal st;
         task := task st |})) /\
  (forall ctx, is_administrator ctx = false ->
     let r := test_news w ctx (fresh idle) in
     posts (history r) = [] /\
     logged (history r) = [] /\
     (forall m, In m (sent (history r)) -> m = Text need_administrator)).
Proof.
  split; [reflexivity|]. split.
  - cbn zeta. rewrite test_news_of_member. cbn [administrator]. unfold send.
    destruct (sink_accepts w (send_count (journal st))); reflexivity.
  - intros [[a]|] H; cbn in H.
    + subst a. cbn zeta. rewrite test_news_of_member. cbn [administrator].
      unfold send, history. cbn.
      destruct (sink_accepts w 0); cbn; repeat split;
        intros m [<- | []]; reflexivity.
    + cbn. repeat split. intros m [].
Qed.

Lemma test_news_without_administrator_witness :
  let w := a_world true (answers 200 (PyStr (str "news"))) (answers 200 PyNone) (fun _ => true) in
  returned (test_news w User (fresh idle)) = Raise AttributeError /\
  sent (history (test_news w User (fresh idle))) = [] /\
  history (test_news w (Member {| administrator := false |}) (fresh idle))
  = [Send Context (Text need_administrator) true].
Proof.
  intros w.
  destruct (test_news_without_administrator w (fresh idle)) as (U & M & _).
  unfold returned, history. rewrite U. cbn zeta in M. rewrite M.
  repeat split.
Defined.

(** ** The completion client *)

Lemma fetch_gaming_news_never_raises (w : world) (st : state) :
  exists v, returned (fetch_gaming_news w st) = Ok v.
Proof. crunch; eexists; reflexivity. Qed.

Lemma fact_check_content_never_raises (w : world) (text : pyval) (st : state) :
  exists v, returned (fact_check_content w text st) = Ok v.
Proof. crunch; eexists; reflexivity. Qed.

(** What the fetch returns does not depend on the journal it starts from. *)
Lemma fetch_gaming_news_returns (w : world) (st st' : state) :
  returned (fetch_gaming_news w st) = returned (fetch_gaming_news w st').
Proof. crunch; reflexivity. Qed.

Lemma fact_check_content_on_failure (w : world) (text : pyval) (st : state) :
  failed (provider w (fact_check_payload text)) ->
  returned (fact_check_content w text st) =
    Ok (PyStr (fallback_of (provider w (fact_check_payload text)))).
Proof.
  intros H. unfold_bot. cbn.
  destruct H as [e | r Hr]; cbn; [reflexivity|].
  apply Z.eqb_neq in Hr. rewrite Hr. reflexivity.
Qed.

(** C3, counterexample: a fact-check call answered with status 500 returns
    a text, not the absence value, and logs nothing. *)
Lemma fact_check_content_on_500 :
  let w := a_world true (answers 200 (PyStr (str "news"))) (answers 500 PyNone) (fun _ => true) in
  let r := fact_check_content w (PyStr (str "news")) (fresh idle) in
  failed (provider w (fact_check_payload (PyStr (str "news")))) /\
  returned r = Ok (PyStr verification_unavailable) /\
  returned r <> Ok PyNone /\
  logged (history r) = [] /\
  ~ fact_check_returns_absence.
Proof.
  cbn zeta.
  assert (F : failed (provider
                (a_world true (answers 200 (PyStr (str "news"))) (answers 500 PyNone)
                   (fun _ => true))
                (fact_check_payload (PyStr (str "news"))))).
  { apply failed_status. cbn. discriminate. }
  split; [exact F|]. split; [reflexivity|]. split; [discriminate|].
  split; [reflexivity|].
  intros C. specialize (C _ _ (fresh idle) F). discriminate C.
Qed.

(** C3, amended: the news call logs the status code of a non-200 answer,
    or the error of a failed transport or malformed body, and returns the
    absence value; the fact-check call returns the text
    "Content appears factual (verification unavailable)" on a non-200
    answer, and logs the error and returns the text
    "Content appears factual (fact-check unavailable)" on a failed
    transport or malformed body; neither call ever raises. *)
Theorem completion_client_failures (w : world) (st : state) :
  (forall r, provider w news_payload = Responded r -> status r <> 200 ->
     fetch_gaming_news w st =
       (Ok PyNone,
        {| journal := Log ERROR (Perplexity_API_error (status r))
                        :: Post news_payload :: journal st;
           task := task st |})) /\
  (forall e, provider w news_payload = Transport_error e
             \/ provider w news_payload = Responded {| status := 200; json := Malformed e |} ->
     fetch_gaming_news w st =
       (Ok PyNone,
        {| journal := Log ERROR (Error_fetching_news e)
                        :: Post news_payload :: journal st;
           task := task st |})) /\
  (forall text r, provider w (fact_check_payload text) = Responded r ->
     status r <> 200 ->
     returned (fact_check_content w text st) = Ok (PyStr verification_unavailable)) /\
  (forall text e, provider w (fact_check_payload text) = Transport_error e
                  \/ provider w (fact_check_payload text)
                     = Responded {| status := 200; json := Malformed e |} ->
     fact_check_content w text st =
       (Ok (PyStr fact_check_unavailable),
        {| journal := Log ERROR (Error_fact_checking e)
                        :: Post (fact_check_payload text) :: journal st;
           task := task st |})) /\
  (exists v, returned (fetch_gaming_news w st) = Ok v) /\
  (forall text, exists v, returned (fact_check_content w text st) = Ok v).
Proof.
  repeat split.
  - intros r H Hr. apply Z.eqb_neq in Hr. unfold_bot. rewrite H, Hr. reflexivity.
  - intros e [H | H]; unfold_bot; rewrite H; reflexivity.
  - intros text r H Hr. apply Z.eqb_neq in Hr. unfold_bot. rewrite H. cbn.
    rewrite Hr. reflexivity.
  - intros text e [H | H]; unfold_bot; rewrite H; reflexivity.
  - apply fetch_gaming_news_never_raises.
  - intros text. apply fact_check_content_never_raises.
Qed.

Lemma completion_client_failures_witness :
  let w := a_world true (answers 503 PyNone) (Transport_error TimeoutError) (fun _ => true) in
  fetch_gaming_news w (fresh idle) =
    (Ok PyNone,
     {| journal := [Log ERROR (Perplexity_API_error 503); Post news_payload];
        task := idle |}) /\
  fact_check_content w (PyStr (str "news")) (fresh idle) =
    (Ok (PyStr fact_check_unavailable),
     {| journal := [Log ERROR (Error_fact_checking TimeoutError);
                    Post (fact_check_payload (PyStr (str "news")))];
        task := idle |}).
Proof.
  intros w.
  destruct (completion_client_failures w (fresh idle)) as (Hnews & _ & _ & Hfact & _).
  split.
  - apply (Hnews {| status := 503; json := Choice_content PyNone |}).
    + reflexivity.
    + cbn. discriminate.
  - apply (Hfact (PyStr (str "news")) TimeoutError). left. reflexivity.
Defined.

(** ** The pipeline when the fetch fails *)

(** C4, counterexample: the fetch is answered with status 500 and Discord
    refuses what the bot sends.  The fetch-failure notice raises in
    [send], the handler sends the generic error notice after it: two
    notices are handed to the sink and none is delivered. *)
Lemma fetch_notice_refused_by_sink :
  let w := a_world true (answers 500 PyNone) (answers 200 PyNone) (fun _ => false) in
  returned (fetch_gaming_news w (fresh idle)) = Ok PyNone /\
  sent (history (run w idle)) = [Text unable_to_fetch; Text error_occurred] /\
  delivered (history (run w idle)) = [] /\
  returned (run w idle) = Raise HTTPException /\
  ~ one_notice_when_fetch_absent.
Proof.
  cbn zeta. repeat split.
  intros C.
  destruct (C (a_world true (answers 500 PyNone) (answers 200 PyNone) (fun _ => false))
              idle 42 eq_refl eq_refl) as [notice E].
  discriminate E.
Qed.

(** C4, amended: when the fetch returns the absence value, the only request
    of the run is the news request (the fact-check call is never made), no
    report is sent, and the fetch-failure notice is the first message
    handed to the sink; when the sink accepts it, it is the only message
    of the run, and when the sink refuses it the generic error notice
    follows. *)
Theorem absent_news_stops_the_run (w : world) (t : loop) (ch : Z) :
  get_channel w (NEWS_CHANNEL_ID w) = Some ch ->
  returned (fetch_gaming_news w (fresh t)) = Ok PyNone ->
  let r := run w t in
  posts (history r) = [news_payload] /\
  sent (history r) =
    Text unable_to_fetch :: (if sink_accepts w 0 then [] else [Text error_occurred]) /\
  (forall m, In m (sent (history r)) -> is_report m = false) /\
  (sink_accepts w 0 = true ->
     returned r = Ok FetchFailed /\
     sent (history r) = [Text unable_to_fetch] /\
     delivered (history r) = [Text unable_to_fetch]).
Proof.
  intros Hch. cbn zeta. unfold run, post_daily_news. rewrite Hch.
  crunch; intros Habs; try discriminate Habs;
    (repeat split;
     [ intros m [<- | [<- | []]] || intros m [<- | []]; reflexivity
     | intros; discriminate || reflexivity.. ]).
Qed.

Lemma absent_news_stops_the_run_witness :
  let w := a_world true (answers 500 PyNone) (answers 200 PyNone) (fun _ => true) in
  posts (history (run w idle)) = [news_payload] /\
  returned (run w idle) = Ok FetchFailed /\
  delivered (history (run w idle)) = [Text unable_to_fetch].
Proof.
  intros w.
  destruct (absent_news_stops_the_run w idle 42 eq_refl eq_refl)
    as (Hposts & _ & _ & Hsink).
  destruct (Hsink eq_refl) as (Hret & _ & Hdel).
  split; [exact Hposts|]. split; [exact Hret | exact Hdel].
Defined.

(** C10: a fetch answered with status 200 and an empty text is treated
    like the absence value: the only request of the run is the news
    request, the fetch-failure notice is what is handed to the sink first
    and no report is, and the run returns, sends and delivers exactly what
    it does in any world with the same channel and sink whose fetch
    returns [None]. *)
Theorem empty_news_is_absence (w : world) (t : loop) (ch : Z) :
  get_channel w (NEWS_CHANNEL_ID w) = Some ch ->
  provider w news_payload = answers 200 (PyStr []) ->
  let r := run w t in
  returned (fetch_gaming_news w (fresh t)) = Ok (PyStr []) /\
  posts (history r) = [news_payload] /\
  sent (history r) =
    Text unable_to_fetch :: (if sink_accepts w 0 then [] else [Text error_occurred]) /\
  (forall m, In m (sent (history r)) -> is_report m = false) /\
  (sink_accepts w 0 = true ->
     returned r = Ok FetchFailed /\ delivered (history r) = [Text unable_to_fetch]) /\
  (forall w' : world,
     get_channel w' (NEWS_CHANNEL_ID w') = Some ch ->
     (forall n, sink_accepts w' n = sink_accepts w n) ->
     returned (fetch_gaming_news w' (fresh t)) = Ok PyNone ->
     let r' := run w' t in
     returned r = returned r' /\
     sent (history r) = sent (history r') /\
     delivered (history r) = delivered (history r') /\
     posts (history r) = posts (history r') /\
     filter is_send (history r) = filter is_send (history r')).
Proof.
  intros Hch Hnews. cbn zeta.
  assert (Hrun : run w t =
    if sink_accepts w 0 then
      (Ok FetchFailed,
       {| journal := [Send (Channel ch) (Text unable_to_fetch) true;
                      Post news_payload; Log INFO Fetching_gaming_news];
          task := t |})
    else
      (if sink_accepts w 1 then Ok DeliveryError else Raise HTTPException,
       {| journal := [Send (Channel ch) (Text error_occurred) (sink_accepts w 1);
                      Log ERROR (Error_posting_daily_news HTTPException);
                      Send (Channel ch) (Text unable_to_fetch) false;
                      Post news_payload; Log INFO Fetching_gaming_news];
          task := t |})).
  { unfold_bot. rewrite Hch. cbn. rewrite Hnews. cbn.
    destruct (sink_accepts w 0); cbn; [reflexivity|].
    destruct (sink_accepts w 1); reflexivity. }
  split; [unfold_bot; cbn; rewrite Hnews; reflexivity|].
  split; [rewrite Hrun; destruct (sink_accepts w 0); reflexivity|].
  split; [rewrite Hrun; destruct (sink_accepts w 0); reflexivity|].
  split.
  { rewrite Hrun. destruct (sink_accepts w 0); cbn.
    - intros m [<- | []]; reflexivity.
    - intros m [<- | [<- | []]]; reflexivity. }
  split; [intros Hok; rewrite Hrun, Hok; split; reflexivity|].
  intros w' Hch' Hsink. rewrite Hrun. clear Hrun Hnews Hch.
  unfold run, post_daily_news. rewrite Hch'.
  rewrite <- (Hsink 0%nat), <- (Hsink 1%nat).
  crunch; intros Habs; try discriminate Habs; repeat split.
Qed.

Lemma empty_news_is_absence_witness :
  let w := a_world true (answers 200 (PyStr [])) (answers 200 PyNone) (fun _ => true) in
  posts (history (run w idle)) = [news_payload] /\
  sent (history (run w idle)) = [Text unable_to_fetch] /\
  returned (run w idle) = Ok FetchFailed.
Proof.
  intros w.
  destruct (empty_news_is_absence w idle 42 eq_refl eq_refl)
    as (_ & Hposts & Hsent & _ & Hsink & _).
  destruct (Hsink eq_refl) as [Hret _].
  split; [exact Hposts|]. split; [exact Hsent | exact Hret].
Defined.

(** ** One message per run *)

(** C5, counterexample: with no news channel in the cache the run sends
    no message at all. *)
Lemma no_channel_no_message :
  let w := a_world false (answers 200 (PyStr (str "news"))) (answers 200 PyNone) (fun _ => true) in
  sent (history (run w idle)) = [] /\
  returned (run w idle) = Ok NoChannel /\
  ~ one_message_per_invocation.
Proof.
  cbn zeta. repeat split.
  intros C.
  specialize (C (a_world false (answers 200 (PyStr (str "news"))) (answers 200 PyNone)
                   (fun _ => true)) idle).
  discriminate C.
Qed.

(** C5, amended: every run delivers at most one message, and whatever it
    hands to the sink is the report or one of the two failure notices;
    when the channel is resolved and the sink accepts the first message
    handed to it, exactly one message is sent and delivered (the report if
    the run ends as Delivered); when the channel is not resolved, none
    is. *)
Theorem at_most_one_message_delivered (w : world) (t : loop) :
  let r := run w t in
  (length (delivered (history r)) <= 1)%nat /\
  (forall m, In m (sent (history r)) ->
     m = Text unable_to_fetch \/ m = Text error_occurred \/ is_report m = true) /\
  (get_channel w (NEWS_CHANNEL_ID w) = None -> sent (history r) = []) /\
  (get_channel w (NEWS_CHANNEL_ID w) <> None -> sink_accepts w 0 = true ->
     length (sent (history r)) = 1%nat /\
     delivered (history r) = sent (history r) /\
     (returned r = Ok Delivered -> exists e, sent (history r) = [Embedded e])).
Proof.
  cbn zeta. unfold run, post_daily_news.
  destruct (get_channel w (NEWS_CHANNEL_ID w)) as [ch|].
  - crunch;
      (split; [lia|]);
      (split; [intros m Hm; cbn in Hm;
               repeat (destruct Hm as [<- | Hm]; [tauto|]); destruct Hm |]);
      (split; [discriminate|]);
      intros _ Hok; try discriminate Hok;
      (split; [reflexivity|]); (split; [reflexivity|]);
      intros Hret; try discriminate Hret; eexists; reflexivity.
  - cbn. repeat split; try lia; try tauto; try congruence.
Qed.

Lemma at_most_one_message_delivered_witness :
  let w := a_world true (answers 200 (PyStr (str "news")))
             (answers 200 (PyStr (str "High"))) (fun _ => true) in
  length (sent (history (run w idle))) = 1%nat /\
  delivered (history (run w idle)) = sent (history (run w idle)).
Proof.
  intros w.
  destruct (at_most_one_message_delivered w idle) as (_ & _ & _ & H).
  destruct (H ltac:(discriminate) eq_refl) as (H1 & H2 & _).
  split; [exact H1 | exact H2].
Defined.

(** ** The pipeline when the fact-check fails *)

(** C1, counterexample: the fallback text is not one fixed string.  A
    fact-check answered with status 500 puts "(verification unavailable)"
    in field 2, a fact-check whose transport fails puts
    "(fact-check unavailable)" there.  (And the report that was built is
    delivered only if Discord accepts it.) *)
Lemma two_fallback_strings :
  let on_500 := a_world true (answers 200 (PyStr (str "news"))) (answers 500 PyNone)
                  (fun _ => true) in
  let on_error := a_world true (answers 200 (PyStr (str "news")))
                    (Transport_error ClientError) (fun _ => true) in
  (exists e, delivered (history (run on_500 idle)) = [Embedded e] /\
             field_value 1 e = Some verification_unavailable) /\
  (exists e, delivered (history (run on_error idle)) = [Embedded e] /\
             field_value 1 e = Some fact_check_unavailable) /\
  verification_unavailable <> fact_check_unavailable /\
  delivered (history (run (a_world true (answers 200 (PyStr (str "news")))
                            (answers 500 PyNone) (fun _ => false)) idle)) = [] /\
  ~ single_fallback_string.
Proof.
  cbn zeta.
  split; [eexists; split; reflexivity|].
  split; [eexists; split; reflexivity|].
  split; [discriminate|].
  split; [reflexivity|].
  intros [fallback C].
  destruct (C (a_world true (answers 200 (PyStr (str "news"))) (answers 500 PyNone)
                 (fun _ => true)) idle 42 (str "news") eq_refl eq_refl)
    as (e1 & D1 & F1);
    [discriminate | apply failed_status; cbn; discriminate | reflexivity |].
  destruct (C (a_world true (answers 200 (PyStr (str "news")))
                 (Transport_error ClientError) (fun _ => true))
              idle 42 (str "news") eq_refl eq_refl)
    as (e2 & D2 & F2);
    [discriminate | apply failed_transport | reflexivity |].
  injection D1 as <-. injection D2 as <-.
  vm_compute in F1, F2. injection F1 as <-. discriminate F2.
Qed.

(** C1, amended: when the fetch returns a non-empty text and the
    fact-check call fails, the run still makes both requests, builds the
    report and hands it to the sink as its first message; field 1 is the
    clipped news text and field 2 is the fallback text of the failure,
    "(verification unavailable)" for a non-200 status and
    "(fact-check unavailable)" for a transport error; when the sink accepts
    the report the run ends as Delivered with the report its only
    message. *)
Theorem failed_fact_check_is_absorbed (w : world) (t : loop) (ch : Z) (text : pystr) :
  get_channel w (NEWS_CHANNEL_ID w) = Some ch ->
  provider w news_payload = answers 200 (PyStr text) ->
  text <> [] ->
  failed (provider w (fact_check_payload (PyStr text))) ->
  let r := run w t in
  exists e,
    field_value 0 e = Some (clip 1000 text) /\
    field_value 1 e = Some (fallback_of (provider w (fact_check_payload (PyStr text)))) /\
    (forall x, provider w (fact_check_payload (PyStr text)) = Responded x ->
       field_value 1 e = Some verification_unavailable) /\
    (forall x, provider w (fact_check_payload (PyStr text)) = Transport_error x ->
       field_value 1 e = Some fact_check_unavailable) /\
    posts (history r) = [news_payload; fact_check_payload (PyStr text)] /\
    hd_error (sent (history r)) = Some (Embedded e) /\
    (sink_accepts w 0 = true ->
       returned r = Ok Delivered /\
       sent (history r) = [Embedded e] /\
       delivered (history r) = [Embedded e]).
Proof.
  intros Hch Hnews Htext Hfail. cbn zeta.
  destruct text as [|c text]; [congruence|]. clear Htext.
  unfold_bot. rewrite Hch. cbn. rewrite Hnews. cbn.
  destruct Hfail as [x | x Hstatus]; cbn;
    [| apply Z.eqb_neq in Hstatus; rewrite Hstatus; cbn];
    repeat (split_stuck; cbn);
    eexists; (repeat match goal with |- _ /\ _ => split end);
    intros; try discriminate.
  (* the first message of the run fixes the report *)
  all: try reflexivity.
  all: repeat split.
Qed.

Lemma failed_fact_check_is_absorbed_witness :
  let w := a_world true (answers 200 (PyStr (str "Studio X acquires studio Y.")))
             (answers 429 PyNone) (fun _ => true) in
  exists e,
    field_value 0 e = Some (str "Studio X acquires studio Y.") /\
    field_value 1 e = Some verification_unavailable /\
    returned (run w idle) = Ok Delivered /\
    delivered (history (run w idle)) = [Embedded e].
Proof.
  intros w.
  destruct (failed_fact_check_is_absorbed w idle 42 (str "Studio X acquires studio Y.")
              eq_refl eq_refl)
    as (e & F0 & F1 & _ & _ & _ & _ & Hsink).
  - discriminate.
  - apply failed_status. cbn. discriminate.
  - destruct (Hsink eq_refl) as (Hret & _ & Hdel).
    exists e. split; [exact F0|]. split; [exact F1|]. split; [exact Hret | exact Hdel].
Defined.

(** ** The task loop *)

Lemma on_ready_task (st : state) :
  task (snd (on_ready st)) =
    if running (task st) then task st
    else {| running := true; starts := S (starts (task st)) |}.
Proof.
  unfold on_ready, is_running, start, bind, logger, emit, ret. cbn.
  destruct (running (task st)) eqn:E; cbn; [reflexivity|].
  rewrite E. reflexivity.
Qed.

Lemma on_ready_returns (st : state) : returned (on_ready st) = Ok tt.
Proof.
  unfold on_ready, is_running, start, bind, logger, emit, ret, returned. cbn.
  destruct (running (task st)) eqn:E; cbn; [reflexivity|].
  rewrite E. reflexivity.
Qed.

Lemma on_ready_arms (st : state) : running (task (snd (on_ready st))) = true.
Proof.
  rewrite on_ready_task. destruct (running (task st)) eqn:E; [exact E | reflexivity].
Qed.

Lemma ready_signals_when_armed (n : nat) (st : state) :
  running (task st) = true -> task (ready_signals n st) = task st.
Proof.
  intros H. induction n as [|n IH]; [reflexivity|].
  cbn [ready_signals]. rewrite on_ready_task, IH, H. reflexivity.
Qed.

Lemma ready_signals_starts (n : nat) (st : state) :
  (starts (task (ready_signals n st)) <= S (starts (task st)))%nat.
Proof.
  destruct n as [|n]; [cbn; lia|].
  revert st. induction n as [|n IH]; intros st.
  - cbn [ready_signals]. rewrite on_ready_task.
    destruct (running (task st)); cbn; lia.
  - change (ready_signals (S (S n)) st)
      with (snd (on_ready (ready_signals (S n) st))).
    rewrite on_ready_task.
    assert (A : running (task (ready_signals (S n) st)) = true)
      by apply on_ready_arms.
    rewrite A. apply IH.
Qed.

(** C8: the connection-ready handler starts the daily task only when it is
    not running.  On an armed scheduler it leaves the schedule state as it
    is (and does not raise); from any state a second signal changes
    nothing the first had not done; so however many signals arrive the
    task is launched at most once. *)
Theorem on_ready_is_idempotent (st : state) :
  (running (task st) = true ->
     task (snd (on_ready st)) = task st /\ returned (on_ready st) = Ok tt) /\
  task (snd (on_ready (snd (on_ready st)))) = task (snd (on_ready st)) /\
  running (task (snd (on_ready st))) = true /\
  (forall n, (starts (task (ready_signals n st)) <= S (starts (task st)))%nat) /\
  (forall n, (starts (task (ready_signals n (fresh idle))) <= 1)%nat).
Proof.
  split.
  { intros H. split; [rewrite on_ready_task, H; reflexivity | apply on_ready_returns]. }
  split.
  { rewrite (on_ready_task (snd (on_ready st))), on_ready_arms. reflexivity. }
  split; [apply on_ready_arms|].
  split; [intros n; apply ready_signals_starts|].
  intros n. apply (ready_signals_starts n (fresh idle)).
Qed.

Lemma on_ready_is_idempotent_witness :
  let armed := {| journal := []; task := {| running := true; starts := 1 |} |} in
  task (snd (on_ready armed)) = {| running := true; starts := 1 |} /\
  returned (on_ready armed) = Ok tt.
Proof.
  intros armed.
  exact (proj1 (on_ready_is_idempotent armed) eq_refl).
Defined.

(** ** The schedule *)

Lemma day_of_bounds (now : Z) :
  day_of now * seconds_per_day <= now < (day_of now + 1) * seconds_per_day.
Proof.
  unfold day_of, seconds_per_day.
  pose proof (Z.div_mod now 86400 ltac:(lia)) as E.
  pose proof (Z.mod_pos_bound now 86400 ltac:(lia)) as B.
  lia.
Qed.

Lemma next_occurrence_ahead (w : world) (now : Z) :
  valid_time w ->
  now < next_occurrence w now /\
  next_occurrence w now - now <= seconds_per_day /\
  (next_occurrence w now = occurrence w (day_of now) \/
   next_occurrence w now = occurrence w (day_of now + 1)) /\
  (forall day, now < occurrence w day -> next_occurrence w now <= occurrence w day).
Proof.
  intros [[Hh0 Hh1] [Hm0 Hm1]].
  pose proof (day_of_bounds now) as B.
  unfold next_occurrence, occurrence, seconds_per_day in *.
  destruct (Z.ltb_spec now
              (day_of now * 86400 + NEWS_POST_HOUR w * 3600 + NEWS_POST_MINUTE w * 60)).
  - repeat split; [lia | lia | left; reflexivity | intros day Hd; lia].
  - repeat split; [lia | lia | right; reflexivity | intros day Hd; lia].
Qed.

(** C9: on an armed scheduler [next_fire] is a timestamp strictly after
    the evaluation time: today's occurrence of the configured hour:minute
    or tomorrow's, the soonest occurrence that is still ahead; with the
    fire time 09:00 and an evaluation at 14:00 it is 09:00 of the
    following day. *)
Theorem next_fire_is_next_occurrence (w : world) (st : state) (now : Z) :
  valid_time w ->
  running (task st) = true ->
  exists t,
    next_fire w st now = Some t /\
    now < t /\
    (t = occurrence w (day_of now) \/ t = occurrence w (day_of now + 1)) /\
    (forall day, now < occurrence w day -> t <= occurrence w day) /\
    (NEWS_POST_HOUR w = 9 -> NEWS_POST_MINUTE w = 0 ->
     forall day,
       next_fire w st (day * seconds_per_day + 14 * 3600)
       = Some ((day + 1) * seconds_per_day + 9 * 3600)).
Proof.
  intros Hv Hr.
  destruct (next_occurrence_ahead w now Hv) as (A & _ & B & C).
  exists (next_occurrence w now). unfold next_fire. rewrite Hr.
  split; [reflexivity|]. split; [exact A|]. split; [exact B|]. split; [exact C|].
  intros H9 H0 day. f_equal.
  unfold next_occurrence, occurrence, day_of, seconds_per_day. rewrite H9, H0.
  replace ((day * 86400 + 14 * 3600) / 86400) with day
    by (apply (Z.div_unique _ _ _ (14 * 3600)); lia).
  destruct (Z.ltb_spec (day * 86400 + 14 * 3600) (day * 86400 + 9 * 3600 + 0 * 60)); lia.
Qed.

Lemma next_fire_is_next_occurrence_witness :
  let w := a_world true (answers 200 (PyStr (str "news"))) (answers 200 PyNone) (fun _ => true) in
  let armed := {| journal := []; task := {| running := true; starts := 1 |} |} in
  (* 2025-09-09 14:00:00 UTC, then 2025-09-10 09:00:00 UTC *)
  next_fire w armed 1757426400 = Some 1757494800 /\
  1757426400 < 1757494800.
Proof.
  intros w armed.
  assert (V : valid_time w) by (unfold valid_time; cbn; lia).
  destruct (next_fire_is_next_occurrence w armed 1757426400 V eq_refl)
    as (t & Ht & Hlt & _).
  vm_compute in Ht. injection Ht as <-. split; [reflexivity | exact Hlt].
Defined.

(** * Further properties of the module *)

(** ** The formatter, beyond the two thresholds *)

Lemma length_ellipsis : length ellipsis = 3%nat.
Proof. reflexivity. Qed.

Lemma clip_length (limit : nat) (s : pystr) :
  length (clip limit s) =
    if (limit <? length s)%nat then (limit + 3)%nat else length s.
Proof.
  unfold clip. destruct (Nat.ltb_spec limit (length s)); [|reflexivity].
  rewrite length_app, length_firstn, length_ellipsis. lia.
Qed.

(** A field built by [create_news_embed] never has more than 1003
    (news) or 503 (fact-check) characters; a text over the threshold
    gives exactly that many, so a news text of 1001 or 1002 characters
    comes out longer than it went in. *)
Theorem report_fields_are_bounded
    (w : world) (news fact : pyval) (st st' : state) (e : embed) :
  create_news_embed w news fact st = (Ok e, st') ->
  exists v0 v1,
    field_value 0 e = Some v0 /\ field_value 1 e = Some v1 /\
    (length v0 <= 1003)%nat /\ (length v1 <= 503)%nat /\
    (forall s, news = PyStr s -> (1000 < length s)%nat -> length v0 = 1003%nat) /\
    (forall s, fact = PyStr s -> (500 < length s)%nat -> length v1 = 503%nat).
Proof.
  destruct news as [|n]; [discriminate|].
  destruct fact as [|f]; [discriminate|].
  intros H. injection H as <- _.
  exists (clip 1000 n), (clip 500 f).
  split; [reflexivity|]. split; [reflexivity|].
  pose proof (clip_length 1000 n) as L0. pose proof (clip_length 500 f) as L1.
  destruct (Nat.ltb_spec 1000 (length n)); destruct (Nat.ltb_spec 500 (length f));
    repeat split; try lia; intros s E; injection E as <-; lia.
Qed.

Lemma report_fields_are_bounded_witness :
  exists v0 v1 : pystr, (length v0 = 1003 /\ length v1 <= 503)%nat.
Proof.
  destruct (report_fields_are_bounded
              (a_world true (answers 200 PyNone) (answers 200 PyNone) (fun _ => true))
              (PyStr (repeat 97%N 1001)) (PyStr (str "High")) (fresh idle) (fresh idle)
              _ eq_refl)
    as (v0 & v1 & _ & _ & _ & B1 & L0 & _).
  exists v0, v1. split; [|exact B1].
  apply (L0 (repeat 97%N 1001) eq_refl). rewrite repeat_length. lia.
Defined.

(** Clipping keeps the first [limit] characters of the text as they are,
    and clipping a clipped text changes nothing: an already formatted
    field can be formatted again. *)
Theorem clip_is_idempotent (limit : nat) (s : pystr) :
  firstn limit (clip limit s) = firstn limit s /\
  clip limit (clip limit s) = clip limit s.
Proof.
  assert (P : firstn limit (clip limit s) = firstn limit s).
  { unfold clip. destruct (Nat.ltb_spec limit (length s)); [|reflexivity].
    rewrite firstn_app, length_firstn.
    replace (limit - Nat.min limit (length s))%nat with 0%nat by lia.
    cbn [firstn]. rewrite app_nil_r, firstn_firstn, Nat.min_id. reflexivity. }
  split; [exact P|].
  unfold clip at 1. rewrite P, clip_length.
  unfold clip. destruct (Nat.ltb_spec limit (length s)) as [L|L].
  - replace (limit <? limit + 3)%nat with true
      by (symmetry; apply Nat.ltb_lt; lia).
    reflexivity.
  - destruct (Nat.ltb_spec limit (length s)); [lia | reflexivity].
Qed.

(** [create_news_embed] raises TypeError exactly when one of its
    arguments is [None] (the news text is looked at first); otherwise it
    returns an embed with two fields, stamped with the current time; in
    no case does it log, send or request anything. *)
Theorem create_news_embed_needs_texts
    (w : world) (news fact : pyval) (st : state) :
  snd (create_news_embed w news fact st) = st /\
  (news = PyNone \/ fact = PyNone <->
   returned (create_news_embed w news fact st) = Raise TypeError) /\
  (forall e, returned (create_news_embed w news fact st) = Ok e ->
     (exists s1 s2, news = PyStr s1 /\ fact = PyStr s2) /\
     timestamp e = utcnow w /\ length (fields e) = 2%nat).
Proof.
  destruct news as [|n]; destruct fact as [|f]; cbn;
    (split; [reflexivity|]); split;
    try (split; [intros _; reflexivity | intros _; tauto]);
    try (intros e H; discriminate H);
    try (split; [intros [H|H]; discriminate H | intros H; discriminate H]).
  intros e H. injection H as <-. repeat split. eauto.
Qed.

(** ** The completion client, beyond its failures *)

(** What a call returns is what the endpoint answered: the fetch returns
    a text exactly when the answer has status 200 and carries that text;
    the fact-check returns the text of a 200 answer as it is, and returns
    [None] only for a 200 answer whose content is null. *)
Theorem client_returns_the_answer (w : world) (text : pyval) (st : state) :
  (forall s, returned (fetch_gaming_news w st) = Ok (PyStr s) <->
             provider w news_payload = answers 200 (PyStr s)) /\
  (forall s, provider w (fact_check_payload text) = answers 200 (PyStr s) ->
             returned (fact_check_content w text st) = Ok (PyStr s)) /\
  (returned (fact_check_content w text st) = Ok PyNone <->
   provider w (fact_check_payload text) = answers 200 PyNone).
Proof.
  split; [|split].
  - intros s. split.
    + unfold_bot. cbn.
      destruct (provider w news_payload) as [e | [code [e | c]]]; cbn;
        try discriminate;
        destruct (Z.eqb_spec code 200); cbn; try discriminate.
      intros H. injection H as ->. subst code. reflexivity.
    + intros H. unfold_bot. cbn. rewrite H. reflexivity.
  - intros s H. unfold_bot. cbn. rewrite H. reflexivity.
  - split.
    + unfold_bot. cbn.
      destruct (provider w (fact_check_payload text)) as [e | [code [e | c]]]; cbn;
        try discriminate;
        destruct (Z.eqb_spec code 200); cbn; try discriminate.
      intros H. injection H as ->. subst code. reflexivity.
    + intros H. unfold_bot. cbn. rewrite H. reflexivity.
Qed.

(** Each call of the client makes exactly one request, whatever the
    endpoint answers: there is no retry.  It adds that request and at most
    one log record to the journal, hands nothing to Discord and leaves
    the task loop alone. *)
Theorem client_makes_one_request (w : world) (text : pyval) (st : state) :
  (exists added,
     journal (snd (fetch_gaming_news w st)) = added ++ journal st /\
     posts added = [news_payload] /\ sent added = [] /\
     (length (logged added) <= 1)%nat /\
     task (snd (fetch_gaming_news w st)) = task st) /\
  (exists added,
     journal (snd (fact_check_content w text st)) = added ++ journal st /\
     posts added = [fact_check_payload text] /\ sent added = [] /\
     (length (logged added) <= 1)%nat /\
     task (snd (fact_check_content w text st)) = task st).
Proof.
  split.
  - unfold_bot. cbn.
    destruct (provider w news_payload) as [e | [code [e | c]]]; cbn;
      try destruct (code =? 200); cbn;
      solve [ exists [Post news_payload]; repeat split; cbn; lia
            | eexists [Log _ _; Post news_payload]; repeat split; cbn; lia ].
  - unfold_bot. cbn.
    destruct (provider w (fact_check_payload text)) as [e | [code [e | c]]]; cbn;
      try destruct (code =? 200); cbn;
      solve [ exists [Post (fact_check_payload text)]; repeat split; cbn; lia
            | eexists [Log _ _; Post (fact_check_payload text)]; repeat split; cbn; lia ].
Qed.

(** ** The pipeline, path by path *)

(** When both calls are answered with status 200 and a text, and Discord
    accepts the message, the run does six things in this order: it logs,
    requests the news, logs, requests the fact-check of exactly the text
    it fetched, sends one report, and logs the success.  The report
    carries the two clipped texts and the time of the run. *)
Theorem verified_news_is_delivered
    (w : world) (t : loop) (ch : Z) (news fact : pystr) :
  get_channel w (NEWS_CHANNEL_ID w) = Some ch ->
  provider w news_payload = answers 200 (PyStr news) ->
  news <> [] ->
  provider w (fact_check_payload (PyStr news)) = answers 200 (PyStr fact) ->
  sink_accepts w 0 = true ->
  exists e,
    returned (run w t) = Ok Delivered /\
    history (run w t) =
      [ Log INFO Fetching_gaming_news;
        Post news_payload;
        Log INFO Fact_checking_news_content;
        Post (fact_check_payload (PyStr news));
        Send (Channel ch) (Embedded e) true;
        Log INFO Daily_news_posted ] /\
    field_value 0 e = Some (clip 1000 news) /\
    field_value 1 e = Some (clip 500 fact) /\
    timestamp e = utcnow w.
Proof.
  intros Hch Hnews Hne Hfact Hok.
  destruct news as [|c news]; [congruence|].
  unfold_bot. rewrite Hch. cbn. rewrite Hnews. cbn. rewrite Hfact. cbn.
  rewrite Hok. cbn. eexists. repeat split.
Qed.

Lemma verified_news_is_delivered_witness :
  let w := a_world true (answers 200 (PyStr (str "Studio X ships game Y.")))
             (answers 200 (PyStr (str "High, 9/10"))) (fun _ => true) in
  exists e,
    delivered (history (run w idle)) = [Embedded e] /\
    field_value 0 e = Some (str "Studio X ships game Y.") /\
    field_value 1 e = Some (str "High, 9/10").
Proof.
  intros w.
  destruct (verified_news_is_delivered w idle 42 (str "Studio X ships game Y.")
              (str "High, 9/10") eq_refl eq_refl ltac:(discriminate) eq_refl eq_refl)
    as (e & _ & H & F0 & F1 & _).
  exists e. rewrite H. split; [reflexivity|]. split; [exact F0 | exact F1].
Defined.

(** The success record is truthful: "Daily gaming news posted
    successfully" is in the log exactly when the run ended as Delivered,
    and that is exactly when one message was delivered and it was a
    report. *)
Theorem success_log_is_truthful (w : world) (t : loop) :
  (In (INFO, Daily_news_posted) (logged (history (run w t))) <->
   returned (run w t) = Ok Delivered) /\
  (returned (run w t) = Ok Delivered <->
   exists e, delivered (history (run w t)) = [Embedded e]).
Proof.
  unfold run, post_daily_news.
  destruct (get_channel w (NEWS_CHANNEL_ID w)) as [ch|].
  - crunch;
      (split; split;
       [ intros H; cbn in H; intuition (discriminate || congruence)
       | intros H; try discriminate H; cbn; tauto
       | intros H; try discriminate H; eexists; reflexivity
       | intros [? H]; try discriminate H; reflexivity ]).
  - cbn. split; split; intros H; try discriminate H;
      [destruct H as [H | []]; discriminate H | destruct H as [e H]; discriminate H].
Qed.

(** An exception leaves the pipeline only when Discord refused the
    generic error notice itself: it is then an HTTPException, the first
    send of the run was refused too and no message was delivered.  A sink
    that accepts the first message handed to it never sees the run
    raise. *)
Theorem run_raises_only_on_refused_notice (w : world) (t : loop) :
  (sink_accepts w 0 = true -> exists o, returned (run w t) = Ok o) /\
  (forall e, returned (run w t) = Raise e ->
     e = HTTPException /\
     sink_accepts w 0 = false /\
     delivered (history (run w t)) = [] /\
     exists before, sent (history (run w t)) = before ++ [Text error_occurred]).
Proof.
  unfold run, post_daily_news.
  destruct (get_channel w (NEWS_CHANNEL_ID w)) as [ch|].
  - crunch;
      (split;
       [ intros H; try discriminate H; eexists; reflexivity
       | intros ? H; try discriminate H; injection H as <-;
         repeat split;
         solve [ exists []; reflexivity | eexists [_]; reflexivity ] ]).
  - cbn. split; [eexists; reflexivity | intros e H; discriminate H].
Qed.

(** A run makes no request, the news request alone, or the news request
    followed by one fact-check request; the fact-check is asked only
    about the very value the fetch returned, and only when that value is
    a non-empty text.  No request is made exactly when the channel is
    not in the cache. *)
Theorem requests_of_a_run (w : world) (t : loop) :
  (posts (history (run w t)) = [] <-> get_channel w (NEWS_CHANNEL_ID w) = None) /\
  (posts (history (run w t)) = [] \/
   posts (history (run w t)) = [news_payload] \/
   exists v, returned (fetch_gaming_news w (fresh t)) = Ok v /\
             truthy v = true /\
             posts (history (run w t)) = [news_payload; fact_check_payload v]).
Proof.
  unfold run, post_daily_news.
  destruct (get_channel w (NEWS_CHANNEL_ID w)) as [ch|].
  - crunch;
      (split; [split; intros H; discriminate H|]);
      solve [ right; left; reflexivity
            | right; right; eexists; split; [reflexivity|]; split; [|reflexivity];
              match goal with
              | H : negb _ = false |- _ => apply negb_false_iff in H; exact H
              end ].
  - cbn. split; [tauto | left; reflexivity].
Qed.

(** A fact-check answered with status 200 and a null content gives the
    pipeline a [None] it cannot format: building the embed raises
    TypeError, no report is handed to the sink, and the generic error
    notice is sent in its place. *)
Theorem null_fact_check_breaks_the_report
    (w : world) (t : loop) (ch : Z) (news : pystr) :
  get_channel w (NEWS_CHANNEL_ID w) = Some ch ->
  provider w news_payload = answers 200 (PyStr news) ->
  news <> [] ->
  provider w (fact_check_payload (PyStr news)) = answers 200 PyNone ->
  sent (history (run w t)) = [Text error_occurred] /\
  In (ERROR, Error_posting_daily_news TypeError) (logged (history (run w t))) /\
  returned (run w t) =
    (if sink_accepts w 0 then Ok DeliveryError else Raise HTTPException).
Proof.
  intros Hch Hnews Hne Hfact.
  destruct news as [|c news]; [congruence|].
  unfold_bot. rewrite Hch. cbn. rewrite Hnews. cbn. rewrite Hfact. cbn.
  destruct (sink_accepts w 0); cbn; repeat split; tauto.
Qed.

Lemma null_fact_check_breaks_the_report_witness :
  let w := a_world true (answers 200 (PyStr (str "news"))) (answers 200 PyNone)
             (fun _ => true) in
  sent (history (run w idle)) = [Text error_occurred] /\
  returned (run w idle) = Ok DeliveryError.
Proof.
  intros w.
  destruct (null_fact_check_breaks_the_report w idle 42 (str "news")
              eq_refl eq_refl ltac:(discriminate) eq_refl) as (S & _ & R).
  split; [exact S | exact R].
Defined.

(** When Discord refuses the report, the run logs the error and hands
    the generic error notice to the sink after it: the run ends as
    DeliveryError if that notice is accepted and raises if it is not, and
    the success record is not written. *)
Theorem refused_report_is_replaced
    (w : world) (t : loop) (ch : Z) (news fact : pystr) :
  get_channel w (NEWS_CHANNEL_ID w) = Some ch ->
  provider w news_payload = answers 200 (PyStr news) ->
  news <> [] ->
  returned (fact_check_content w (PyStr news) (fresh t)) = Ok (PyStr fact) ->
  sink_accepts w 0 = false ->
  exists e,
    field_value 0 e = Some (clip 1000 news) /\
    field_value 1 e = Some (clip 500 fact) /\
    sent (history (run w t)) = [Embedded e; Text error_occurred] /\
    delivered (history (run w t)) =
      (if sink_accepts w 1 then [Text error_occurred] else []) /\
    returned (run w t) =
      (if sink_accepts w 1 then Ok DeliveryError else Raise HTTPException) /\
    In (ERROR, Error_posting_daily_news HTTPException) (logged (history (run w t))) /\
    ~ In (INFO, Daily_news_posted) (logged (history (run w t))).
Proof.
  intros Hch Hnews Hne Hfact Hno.
  destruct news as [|c news]; [congruence|].
  revert Hfact Hno. unfold run, post_daily_news. rewrite Hch.
  unfold_bot. cbn. rewrite Hnews. cbn.
  repeat (split_stuck; cbn); intros Hfact Hno;
    try discriminate Hfact; try discriminate Hno;
    injection Hfact as ->;
    (eexists; repeat split;
     [ reflexivity || tauto ..
     | intros H; cbn in H; intuition discriminate ]).
Qed.

Lemma refused_report_is_replaced_witness :
  let w := a_world true (answers 200 (PyStr (str "news")))
             (answers 200 (PyStr (str "High"))) (fun n => negb (Nat.eqb n 0)) in
  delivered (history (run w idle)) = [Text error_occurred] /\
  returned (run w idle) = Ok DeliveryError.
Proof.
  intros w.
  destruct (refused_report_is_replaced w idle 42 (str "news") (str "High")
              eq_refl eq_refl ltac:(discriminate) eq_refl eq_refl)
    as (e & _ & _ & _ & D & R & _).
  split; [exact D | exact R].
Defined.

(** The two early ways out, read backwards: a run ends as NoChannel
    exactly when the channel is not in the cache, and as FetchFailed
    exactly when the channel is there, the fetch returned [None] or an
    empty text, and Discord accepted the notice. *)
Theorem early_exits (w : world) (t : loop) :
  (returned (run w t) = Ok NoChannel <->
   get_channel w (NEWS_CHANNEL_ID w) = None) /\
  (returned (run w t) = Ok FetchFailed <->
   get_channel w (NEWS_CHANNEL_ID w) <> None /\
   (exists v, returned (fetch_gaming_news w (fresh t)) = Ok v /\ truthy v = false) /\
   sink_accepts w 0 = true).
Proof.
  unfold run, post_daily_news.
  destruct (get_channel w (NEWS_CHANNEL_ID w)) as [ch|].
  - crunch;
      (split; [split; intros H; discriminate H|]);
      (split;
       [ intros H;
         first [ discriminate H
               | split; [discriminate|];
                 split; [|reflexivity];
                 eexists; split; [reflexivity|];
                 first [reflexivity | apply negb_true_iff; assumption] ]
       | intros (_ & (v & Hv & Ht) & Hs);
         first [ discriminate Hs
               | reflexivity
               | injection Hv as <-; cbn in Ht;
                 match goal with
                 | H : negb _ = false |- _ =>
                     apply negb_false_iff in H; congruence
                 end ] ]).
  - cbn. split; [tauto|]. split; [intros H; discriminate H | intros [H _]; congruence].
Qed.

(** The pipeline only adds to the journal, at most two requests and two
    messages per run, and never starts, stops or otherwise touches the
    daily task, from whatever state it is called. *)
Theorem pipeline_frame (w : world) (st : state) :
  task (snd (post_daily_news w st)) = task st /\
  exists added,
    journal (snd (post_daily_news w st)) = added ++ journal st /\
    (length (posts added) <= 2)%nat /\
    (length (sent added) <= 2)%nat /\
    (1 <= length (logged added))%nat.
Proof.
  rewrite post_daily_news_anywhere. unfold after. cbn [snd task journal].
  set (w' := later_sink w (send_count (journal st))).
  split.
  - unfold run, post_daily_news.
    destruct (get_channel w' (NEWS_CHANNEL_ID w')); crunch; reflexivity.
  - exists (journal (snd (run w' (task st)))). split; [reflexivity|].
    unfold run, post_daily_news.
    destruct (get_channel w' (NEWS_CHANNEL_ID w')); crunch; repeat split; lia.
Qed.

(** ** The scheduled run and the test command *)

(** The daily task is the pipeline behind one log record: it ends,
    requests, sends and delivers exactly as the bare run does. *)
Theorem daily_gaming_news_is_the_pipeline (w : world) (t : loop) :
  returned (daily_gaming_news w (fresh t)) = returned (run w t) /\
  history (daily_gaming_news w (fresh t)) =
    Log INFO Running_daily_task :: history (run w t).
Proof.
  unfold daily_gaming_news, bind, logger, emit. cbn.
  rewrite post_daily_news_anywhere. unfold after, history, returned. cbn.
  replace (later_sink w 0) with w by (destruct w; reflexivity).
  split; [reflexivity|].
  rewrite rev_app_distr. reflexivity.
Qed.

(** For an administrator the command first acknowledges.  If Discord
    refuses the acknowledgment the command raises there and then: the
    pipeline does not run and no request is made.  If it is accepted the
    pipeline runs once, as the next sender, and an exception of the
    pipeline leaves the command. *)
Theorem test_news_for_administrator (w : world) (ctx : author) (t : loop) :
  is_administrator ctx = true ->
  (sink_accepts w 0 = false ->
     test_news w ctx (fresh t) =
       (Raise HTTPException,
        {| journal := [Send Context (Text fetching_test_news) false]; task := t |})) /\
  (sink_accepts w 0 = true ->
     let pipeline := run (later_sink w 1) t in
     history (test_news w ctx (fresh t)) =
       Send Context (Text fetching_test_news) true :: history pipeline /\
     returned (test_news w ctx (fresh t)) =
       match returned pipeline with
       | Ok _ => Ok tt
       | Raise e => Raise e
       end).
Proof.
  intros Hadmin. destruct ctx as [perms|]; [|discriminate Hadmin].
  cbn in Hadmin. rewrite test_news_of_member, Hadmin. split; intros Hs.
  - unfold bind, send. cbn. rewrite Hs. reflexivity.
  - cbn zeta.
    assert (E : (send w Context (Text fetching_test_news) ;;
                 post_daily_news w ;; ret tt) (fresh t) =
                (match returned (run (later_sink w 1) t) with
                 | Ok _ => Ok tt
                 | Raise e => Raise e
                 end,
                 {| journal := journal (snd (run (later_sink w 1) t))
                               ++ [Send Context (Text fetching_test_news) true];
                    task := task (snd (run (later_sink w 1) t)) |})).
    { unfold bind, send. cbn. rewrite Hs, post_daily_news_anywhere.
      unfold after, returned. cbn.
      destruct (run (later_sink w 1) t) as [[o | e] st']; reflexivity. }
    rewrite E. unfold history. cbn [snd fst journal returned].
    rewrite rev_app_distr. split; [reflexivity|].
    unfold returned. reflexivity.
Qed.

Lemma test_news_for_administrator_witness :
  let w := a_world true (answers 500 PyNone) (answers 200 PyNone) (fun _ => true) in
  sent (history (test_news w (Member {| administrator := true |}) (fresh idle)))
  = [Text fetching_test_news; Text unable_to_fetch].
Proof.
  intros w.
  destruct (test_news_for_administrator w (Member {| administrator := true |}) idle eq_refl)
    as [_ H].
  destruct (H eq_refl) as [E _]. rewrite E. reflexivity.
Defined.

(** Whoever invokes the command, a request reaches the completion
    endpoint only if the invoker is an administrator, the acknowledgment
    was accepted and the news channel is in the cache. *)
Theorem test_news_requests_need_administrator (w : world) (ctx : author) (t : loop) :
  posts (history (test_news w ctx (fresh t))) <> [] ->
  is_administrator ctx = true /\
  sink_accepts w 0 = true /\
  get_channel w (NEWS_CHANNEL_ID w) <> None.
Proof.
  destruct ctx as [[a]|]; [|intros H; contradiction H; reflexivity].
  rewrite test_news_of_member. cbn [administrator is_administrator]. destruct a.
  - unfold bind at 1. unfold send at 1. cbn.
    destruct (sink_accepts w 0); cbn; [|intros H; contradiction H; reflexivity].
    unfold bind. rewrite post_daily_news_anywhere. unfold after. cbn.
    destruct (get_channel w (NEWS_CHANNEL_ID w)) as [ch|] eqn:Hch.
    + intros _. repeat split. discriminate.
    + unfold run, post_daily_news. cbn. rewrite Hch. cbn.
      intros H. contradiction H. reflexivity.
  - unfold send. cbn. destruct (sink_accepts w 0); cbn;
      intros H; contradiction H; reflexivity.
Qed.

Lemma test_news_requests_need_administrator_witness :
  let w := a_world true (answers 500 PyNone) (answers 200 PyNone) (fun _ => true) in
  is_administrator (Member {| administrator := true |}) = true /\
  sink_accepts w 0 = true.
Proof.
  intros w.
  destruct (test_news_requests_need_administrator w
              (Member {| administrator := true |}) idle)
    as (A & S & _); [vm_compute; discriminate|].
  split; [exact A | exact S].
Defined.

(** ** The ready signal and the status command *)

(** However many ready signals arrive, and whatever the state before the
    first, all the signals after the first add their two connection
    records and nothing else: the task and the rest of the journal are as
    the first signal left them.  On a bot that starts idle the task is
    therefore launched exactly once, and "Daily gaming news task
    started" is logged exactly once. *)
Theorem daily_task_is_launched_once (n : nat) (st : state) :
  ready_signals (S n) st =
    {| journal := later_signals n ++ journal (snd (on_ready st));
       task := task (snd (on_ready st)) |} /\
  ready_signals (S n) (fresh idle) =
    {| journal := later_signals n ++
                  [ Log INFO Daily_task_started;
                    Log INFO Bot_is_in_guilds;
                    Log INFO Connected_to_Discord ];
       task := {| running := true; starts := 1 |} |}.
Proof.
  assert (G : forall st0, ready_signals (S n) st0 =
    {| journal := later_signals n ++ journal (snd (on_ready st0));
       task := task (snd (on_ready st0)) |}).
  { intros st0. induction n as [|n IH].
    - cbn [ready_signals later_signals app]. destruct (snd (on_ready st0)). reflexivity.
    - change (ready_signals (S (S n)) st0)
        with (snd (on_ready (ready_signals (S n) st0))).
      rewrite IH.
      pose proof (on_ready_arms st0) as A.
      set (first_signal := snd (on_ready st0)) in *.
      unfold on_ready, is_running, start, bind, logger, emit, ret. cbn.
      rewrite A. reflexivity. }
  split; [apply G|]. rewrite G. reflexivity.
Qed.

(** The status command sends one embed of four fields to the invoking
    context and does nothing else: no request, no log record, no change
    of the task; it raises only if Discord refuses the embed.  The embed
    shows the daily task as Active exactly when the task loop is
    running, so it shows Active once a ready signal has been handled,
    from any earlier state. *)
Theorem status_reports_the_task
    (datetime : Type) (strftime : datetime -> pystr) (format_int : Z -> pystr)
    (w : world) (next_iteration : option datetime) (st : state) :
  let daily_news c := option_map value (nth_error (status_fields c) 1) in
  let accepted s := sink_accepts w (send_count (journal s)) in
  (exists c,
     bot_status datetime strftime format_int w next_iteration st =
       (if accepted st then Ok tt else Raise HTTPException,
        {| journal := Send Context (Status_card c) (accepted st) :: journal st;
           task := task st |}) /\
     length (status_fields c) = 4%nat /\
     (daily_news c = Some (check_mark :: str " Active") <-> running (task st) = true) /\
     (daily_news c = Some (cross_mark :: str " Inactive") <-> running (task st) = false)) /\
  (exists c,
     journal (snd (bot_status datetime strftime format_int w next_iteration
                     (snd (on_ready st)))) =
       Send Context (Status_card c) (accepted (snd (on_ready st)))
         :: journal (snd (on_ready st)) /\
     daily_news c = Some (check_mark :: str " Active")).
Proof.
  cbn zeta. split.
  - unfold bot_status, bind, is_running, send, ret. cbn.
    eexists. split.
    + destruct (sink_accepts w (send_count (journal st))); reflexivity.
    + split; [reflexivity|]. cbn.
      destruct (running (task st)); split; split; intros H;
        solve [reflexivity | discriminate H].
  - pose proof (on_ready_arms st) as A.
    set (armed := snd (on_ready st)) in *.
    unfold bot_status, bind, is_running, send, ret. cbn.
    rewrite A. eexists. split.
    + destruct (sink_accepts w (send_count (journal armed))); reflexivity.
    + reflexivity.
Qed.

(** ** Module start-up *)

Lemma time_accepts_spec (h m : Z) :
  time_accepts h m = true <-> 0 <= h <= 23 /\ 0 <= m <= 59.
Proof. unfold time_accepts. rewrite !andb_true_iff, !Z.leb_le. lia. Qed.

(** Settings that load are usable: the fire time is a time of day, so
    every world configured from them satisfies [valid_time]; a variable
    that is not set falls back to channel 0, hour 9 and minute 0 without
    [int] being asked. *)
Theorem loaded_settings_are_valid
    (int_of : pystr -> option Z) (env : environ) (cfg : settings) :
  load_settings int_of env = Some cfg ->
  (0 <= post_hour cfg <= 23 /\ 0 <= post_minute cfg <= 59) /\
  (forall w, configured cfg w -> valid_time w) /\
  (env "NEWS_CHANNEL_ID" = PyNone -> channel_id cfg = 0) /\
  (env "NEWS_POST_HOUR" = PyNone -> post_hour cfg = 9) /\
  (env "NEWS_POST_MINUTE" = PyNone -> post_minute cfg = 0).
Proof.
  unfold load_settings, getenv_int. intros H.
  assert (T : time_accepts (post_hour cfg) (post_minute cfg) = true
              /\ (env "NEWS_CHANNEL_ID" = PyNone -> channel_id cfg = 0)
              /\ (env "NEWS_POST_HOUR" = PyNone -> post_hour cfg = 9)
              /\ (env "NEWS_POST_MINUTE" = PyNone -> post_minute cfg = 0)).
  { destruct (env "NEWS_CHANNEL_ID") as [|sc];
      [|destruct (int_of sc); [|discriminate H]];
      (destruct (env "NEWS_POST_HOUR") as [|sh];
       [|destruct (int_of sh); [|discriminate H]]);
      (destruct (env "NEWS_POST_MINUTE") as [|sm];
       [|destruct (int_of sm); [|discriminate H]]);
      (match type of H with
       | (if ?b then _ else _) = _ => destruct b eqn:E; [|discriminate H]
       end);
      injection H as <-; cbn; repeat split; trivial; intros D; discriminate D. }
  destruct T as (T & Dc & Dh & Dm). apply time_accepts_spec in T.
  split; [exact T|]. split; [|tauto].
  intros w (_ & Hh & Hm). unfold valid_time. rewrite Hh, Hm. exact T.
Qed.

Lemma loaded_settings_are_valid_witness :
  let env := env_of [("DISCORD_TOKEN", str "token"); ("NEWS_POST_HOUR", str "18")] in
  let cfg := {| channel_id := 0; post_hour := 18; post_minute := 0 |} in
  load_settings (fun _ => Some 18) env = Some cfg /\
  0 <= post_hour cfg <= 23 /\
  channel_id cfg = 0.
Proof.
  intros env cfg.
  destruct (loaded_settings_are_valid (fun _ => Some 18) env cfg eq_refl)
    as ((H & _) & _ & C & _).
  split; [reflexivity|]. split; [exact H | exact (C eq_refl)].
Defined.

Lemma module_body_loaded
    (int_of : pystr -> option Z) (bot_run : pystr -> option exn)
    (env : environ) (as_main : bool) (cfg : settings) (key token : pystr) :
  load_settings int_of env = Some cfg ->
  env "PERPLEXITY_API_KEY" = PyStr key -> key <> [] ->
  env "DISCORD_TOKEN" = PyStr token -> token <> [] ->
  module_body int_of bot_run env as_main =
    let warned :=
      if channel_id cfg =? 0 then [(WARNING, Channel_id_not_set)] else [] in
    if as_main then
      match bot_run token with
      | None => (warned, Bot_returned)
      | Some e => (warned ++ [(ERROR, Failed_to_start_bot e)], Bot_returned)
      end
    else (warned, Imported).
Proof.
  intros L K Kne T Tne. unfold module_body. rewrite L, K, T.
  destruct key; [congruence|]. destruct token; [congruence|]. reflexivity.
Qed.

(** The module gets as far as [bot.run] exactly when the settings load
    and both credentials are set and not empty.  The channel id is not
    among the conditions: left unset it becomes 0, which only adds the
    warning "NEWS_CHANNEL_ID not set". *)
Theorem bot_runs_iff_configured
    (int_of : pystr -> option Z) (bot_run : pystr -> option exn) (env : environ) :
  (snd (module_body int_of bot_run env true) = Bot_returned <->
   (exists cfg, load_settings int_of env = Some cfg) /\
   truthy (env "PERPLEXITY_API_KEY") = true /\
   truthy (env "DISCORD_TOKEN") = true) /\
  (forall cfg,
     load_settings int_of env = Some cfg ->
     snd (module_body int_of bot_run env true) = Bot_returned ->
     (In (WARNING, Channel_id_not_set) (fst (module_body int_of bot_run env true))
      <-> channel_id cfg = 0)).
Proof.
  split.
  - unfold module_body.
    destruct (load_settings int_of env) as [cfg|]; cbn.
    + destruct (env "PERPLEXITY_API_KEY") as [|[|k key]]; cbn;
        try (split; [intros H; discriminate H | intros (_ & H & _); discriminate H]).
      destruct (env "DISCORD_TOKEN") as [|[|c token]]; cbn;
        try (split; [intros H; discriminate H | intros (_ & _ & H); discriminate H]).
      destruct (bot_run (c :: token)); cbn; split; intros _; eauto.
    + split; [intros H; discriminate H | intros ([cfg H] & _); discriminate H].
  - intros cfg L. unfold module_body. rewrite L.
    destruct (env "PERPLEXITY_API_KEY") as [|[|k key]]; cbn;
      try (intros H; discriminate H).
    destruct (env "DISCORD_TOKEN") as [|[|c token]]; cbn;
      try (intros H; discriminate H).
    intros _. destruct (Z.eqb_spec (channel_id cfg) 0) as [E|E];
      destruct (bot_run (c :: token)); cbn; split; intros H;
      try tauto; try contradiction;
      try (destruct H as [H | []]; discriminate H).
Qed.

(** A missing or empty credential ends the module with [exit(1)] after
    one error record that names it, the API key before the token, and
    [bot.run] is not reached (nothing of the result depends on it).  No
    other exit code exists. *)
Theorem missing_credential_exits
    (int_of : pystr -> option Z) (bot_run : pystr -> option exn)
    (env : environ) (as_main : bool) (cfg : settings) :
  load_settings int_of env = Some cfg ->
  (truthy (env "PERPLEXITY_API_KEY") = false ->
     module_body int_of bot_run env as_main
       = ([(ERROR, API_key_not_found)], SystemExit 1)) /\
  (truthy (env "PERPLEXITY_API_KEY") = true ->
   truthy (env "DISCORD_TOKEN") = false ->
     module_body int_of bot_run env as_main
       = ([(ERROR, Token_not_found)], SystemExit 1)) /\
  (forall code, snd (module_body int_of bot_run env as_main) = SystemExit code ->
     code = 1 /\
     (truthy (env "PERPLEXITY_API_KEY") = false \/
      truthy (env "DISCORD_TOKEN") = false) /\
     forall other_run, module_body int_of other_run env as_main
                       = module_body int_of bot_run env as_main).
Proof.
  intros L. unfold module_body. rewrite L.
  destruct (truthy (env "PERPLEXITY_API_KEY")) eqn:K; cbn.
  - split; [intros H; discriminate H|].
    destruct (truthy (env "DISCORD_TOKEN")) eqn:T; cbn.
    + split; [intros _ H; discriminate H|].
      intros code. destruct as_main.
      * destruct (env "DISCORD_TOKEN") as [|token]; [discriminate T|].
        destruct (bot_run token); intros H; discriminate H.
      * intros H; discriminate H.
    + split; [reflexivity|].
      intros code H. injection H as <-. repeat split. tauto.
  - split; [reflexivity|]. split; [intros H; discriminate H|].
    intros code H. injection H as <-. repeat split. tauto.
Qed.

Lemma missing_credential_exits_witness :
  module_body (fun _ => None) (fun _ => None)
    (env_of [("DISCORD_TOKEN", str "token")]) true
  = ([(ERROR, API_key_not_found)], SystemExit 1).
Proof.
  exact (proj1 (missing_credential_exits (fun _ => None) (fun _ => None)
                  (env_of [("DISCORD_TOKEN", str "token")]) true
                  {| channel_id := 0; post_hour := 9; post_minute := 0 |} eq_refl)
               eq_refl).
Defined.

Lemma getenv_int_refused
    (int_of : pystr -> option Z) (env : environ) (name : string) (default : Z) :
  getenv_int int_of env name default = None <->
  exists s, env name = PyStr s /\ int_of s = None.
Proof.
  unfold getenv_int. destruct (env name) as [|s].
  - split; [intros H; discriminate H | intros (s & H & _); discriminate H].
  - split; [intros H; exists s; tauto | intros (s' & H & I); congruence].
Qed.

Lemma load_settings_refused (int_of : pystr -> option Z) (env : environ) :
  load_settings int_of env = None <->
  getenv_int int_of env "NEWS_CHANNEL_ID" 0 = None \/
  getenv_int int_of env "NEWS_POST_HOUR" 9 = None \/
  getenv_int int_of env "NEWS_POST_MINUTE" 0 = None \/
  exists h m, getenv_int int_of env "NEWS_POST_HOUR" 9 = Some h /\
              getenv_int int_of env "NEWS_POST_MINUTE" 0 = Some m /\
              time_accepts h m = false.
Proof.
  unfold load_settings.
  destruct (getenv_int int_of env "NEWS_CHANNEL_ID" 0) as [c|]; [|tauto].
  destruct (getenv_int int_of env "NEWS_POST_HOUR" 9) as [h|]; [|tauto].
  destruct (getenv_int int_of env "NEWS_POST_MINUTE" 0) as [m|]; [|tauto].
  destruct (time_accepts h m) eqn:T.
  - split; [intros H; discriminate H|].
    intros [H | [H | [H | (h' & m' & Hh & Hm & Ht)]]]; try discriminate H.
    injection Hh as <-. injection Hm as <-. congruence.
  - split; [intros _|reflexivity].
    right; right; right. exists h, m. tauto.
Qed.

(** The integer settings are read before anything else is checked: the
    module fails while it loads, with nothing logged even if a credential
    is missing too, exactly when one of the three variables is set to
    something [int] refuses or the hour and minute are not a time of
    day. *)
Theorem bad_setting_stops_the_import
    (int_of : pystr -> option Z) (bot_run : pystr -> option exn)
    (env : environ) (as_main : bool) :
  let refused name := exists s, env name = PyStr s /\ int_of s = None in
  (module_body int_of bot_run env as_main = ([], Load_failed) <->
   snd (module_body int_of bot_run env as_main) = Load_failed) /\
  (snd (module_body int_of bot_run env as_main) = Load_failed <->
   refused "NEWS_CHANNEL_ID" \/ refused "NEWS_POST_HOUR" \/ refused "NEWS_POST_MINUTE" \/
   exists h m, getenv_int int_of env "NEWS_POST_HOUR" 9 = Some h /\
               getenv_int int_of env "NEWS_POST_MINUTE" 0 = Some m /\
               time_accepts h m = false).
Proof.
  cbn zeta.
  assert (E : snd (module_body int_of bot_run env as_main) = Load_failed <->
              load_settings int_of env = None).
  { unfold module_body. destruct (load_settings int_of env); cbn.
    - destruct (truthy (env "PERPLEXITY_API_KEY")); cbn;
        [|split; intros H; discriminate H].
      destruct (truthy (env "DISCORD_TOKEN")); cbn;
        [|split; intros H; discriminate H].
      destruct as_main; [|split; intros H; discriminate H].
      destruct (env "DISCORD_TOKEN") as [|token];
        [split; intros H; discriminate H|].
      destruct (bot_run token); split; intros H; discriminate H.
    - tauto. }
  split.
  - split; [intros ->; reflexivity|].
    intros H. apply E in H. unfold module_body. rewrite H. reflexivity.
  - rewrite E, load_settings_refused, !getenv_int_refused. tauto.
Qed.

(** A failure of [bot.run] does not escape the module: it is logged as
    "Failed to start bot" after the records written before it, and the
    module ends as it does when [bot.run] returns.  [bot.run] is given
    the token of the environment. *)
Theorem bot_run_failure_is_logged
    (int_of : pystr -> option Z) (bot_run : pystr -> option exn)
    (env : environ) (cfg : settings) (key token : pystr) (e : exn) :
  load_settings int_of env = Some cfg ->
  env "PERPLEXITY_API_KEY" = PyStr key -> key <> [] ->
  env "DISCORD_TOKEN" = PyStr token -> token <> [] ->
  bot_run token = Some e ->
  module_body int_of bot_run env true =
    (fst (module_body int_of (fun _ => None) env true)
       ++ [(ERROR, Failed_to_start_bot e)],
     Bot_returned) /\
  snd (module_body int_of (fun _ => None) env true) = Bot_returned /\
  (forall other_run, other_run token = Some e ->
     module_body int_of other_run env true = module_body int_of bot_run env true).
Proof.
  intros L K Kne T Tne R.
  rewrite (module_body_loaded int_of bot_run env true cfg key token L K Kne T Tne).
  rewrite (module_body_loaded int_of (fun _ => None) env true cfg key token L K Kne T Tne).
  cbn zeta. rewrite R. cbn. repeat split.
  intros other_run R'.
  rewrite (module_body_loaded int_of other_run env true cfg key token L K Kne T Tne).
  cbn zeta. rewrite R'. reflexivity.
Qed.

Lemma bot_run_failure_is_logged_witness :
  module_body (fun _ => None) (fun _ => Some ClientError)
    (env_of [("PERPLEXITY_API_KEY", str "key"); ("DISCORD_TOKEN", str "token")]) true
  = ([(WARNING, Channel_id_not_set); (ERROR, Failed_to_start_bot ClientError)],
     Bot_returned).
Proof.
  exact (proj1 (bot_run_failure_is_logged (fun _ => None) (fun _ => Some ClientError)
                  (env_of [("PERPLEXITY_API_KEY", str "key"); ("DISCORD_TOKEN", str "token")])
                  {| channel_id := 0; post_hour := 9; post_minute := 0 |}
                  (str "key") (str "token") ClientError
                  eq_refl eq_refl ltac:(discriminate) eq_refl ltac:(discriminate) eq_refl)).
Defined.
